(** * fasthttp-auth: the Casbin authorization middleware for fasthttp

    A shallow embedding of [authz.go] (package [authz]) and the properties
    of its request mediation: attribute extraction, the three-way branch
    on the result of [Enforce], the option functions of the constructor.

    The HTTP transport (fasthttp) and the policy engine (casbin) are
    libraries the package imports.  The part of [fasthttp.RequestCtx]
    the package touches is modelled in [Module fasthttp]; the engine is a
    parameter of [Section Authz]. *)

From Stdlib Require Import ZArith NArith Ascii.
From stdpp Require Import base strings list gmap.

Local Open Scope Z_scope.
Local Open Scope string_scope.

(** ** The slice of fasthttp used by the package *)

Module fasthttp.

(** [RequestHeader]: the method and the header fields by canonical key. *)
Record RequestHeader := mkRequestHeader {
  method : string;
  fields : gmap string string
}.

(** [Request]: header, the path of the request as [ctx.Path()] returns
    it to a handler (how fasthttp obtains it from the request line is not
    part of the package), and the query arguments. *)
Record Request := mkRequest {
  Header : RequestHeader;
  uriPath : string;
  queryArgs : gmap string string
}.

(** [Response]: the raw status code (0 until one is set), the content
    type and the body buffer. *)
Record Response := mkResponse {
  statusCode : Z;
  contentType : string;
  body : string
}.

Record RequestCtx := mkRequestCtx {
  Req : Request;
  Resp : Response
}.

Definition StatusOK : Z := 200.
Definition StatusForbidden : Z := 403.
Definition StatusInternalServerError : Z := 500.
Definition StatusNotFound : Z := 404.

(** [h.Peek(key)]: the value stored under [key], no bytes when there
    is none ([string(nil)] is the empty string). *)
Definition Peek (h : RequestHeader) (key : string) : string :=
  default "" (fields h !! key).

(** [args.Peek(key)] on the query arguments. *)
Definition PeekArg (r : Request) (key : string) : string :=
  default "" (queryArgs r !! key).

(** [ctx.Path()] and [ctx.Method()]. *)
Definition Path (ctx : RequestCtx) : string := uriPath (Req ctx).
Definition Method (ctx : RequestCtx) : string := method (Header (Req ctx)).

(** [resp.StatusCode()]: 200 while no status code was set. *)
Definition StatusCode (r : Response) : Z :=
  if decide (statusCode r = 0) then StatusOK else statusCode r.

Definition Body (r : Response) : string := body r.

Definition SetStatusCode (code : Z) (ctx : RequestCtx) : RequestCtx :=
  {| Req := Req ctx;
     Resp := {| statusCode := code;
                contentType := contentType (Resp ctx);
                body := body (Resp ctx) |} |}.

Definition SetContentType (ct : string) (ctx : RequestCtx) : RequestCtx :=
  {| Req := Req ctx;
     Resp := {| statusCode := statusCode (Resp ctx);
                contentType := ct;
                body := body (Resp ctx) |} |}.

(** [ctx.WriteString(s)] appends [s] to the response body. *)
Definition WriteString (s : string) (ctx : RequestCtx) : RequestCtx :=
  {| Req := Req ctx;
     Resp := {| statusCode := statusCode (Resp ctx);
                contentType := contentType (Resp ctx);
                body := body (Resp ctx) +:+ s |} |}.

(** A context as the transport hands it to a handler: nothing written
    to the response yet. *)
Definition emptyResponse : Response :=
  {| statusCode := 0; contentType := ""; body := "" |}.

Definition newCtx (hdrs : gmap string string) (path meth : string)
    (args : gmap string string) : RequestCtx :=
  {| Req := {| Header := {| method := meth; fields := hdrs |};
               uriPath := path; queryArgs := args |};
     Resp := emptyResponse |}.

(** *** The path of a request

    [ctx.Path()] is the path of the request target after fasthttp has
    decoded and normalised it. *)

(** The value of a hexadecimal digit ([hex2intTable]); [None] stands for
    the table's 16, not a digit. *)
Definition hex2int (c : ascii) : option N :=
  let n := N_of_ascii c in
  if (48 <=? n)%N && (n <=? 57)%N then Some (n - 48)%N
  else if (97 <=? n)%N && (n <=? 102)%N then Some (n - 87)%N
  else if (65 <=? n)%N && (n <=? 70)%N then Some (n - 55)%N
  else None.

(** [decodeArgAppendNoPlus]: [%XX] becomes the byte XX; a [%] that is
    not followed by two hexadecimal digits stays, and so does the rest
    when fewer than two bytes follow it. *)
Fixpoint decodeArgAppendNoPlus (src : string) : string :=
  match src with
  | "" => ""
  | String c t =>
      if (c =? "%")%char then
        match t with
        | String h1 (String h2 t2) =>
            match hex2int h1, hex2int h2 with
            | Some x1, Some x2 =>
                String (ascii_of_N (x1 * 16 + x2)) (decodeArgAppendNoPlus t2)
            | _, _ => String c (decodeArgAppendNoPlus t)
            end
        | _ => src
        end
      else String c (decodeArgAppendNoPlus t)
  end.

(** [addLeadingSlash], as the bytes it puts in front of the path. *)
Definition addLeadingSlash (src : string) : string :=
  match src with
  | String c _ => if (c =? "/")%char then "" else "/"
  | "" => "/"
  end.

(** The first loop of [normalizePath]: of two slashes in a row the first
    is dropped. *)
Fixpoint removeDuplicateSlashes (b : string) : string :=
  match b with
  | "" => ""
  | String c t =>
      match t with
      | String c1 _ =>
          if (c =? "/")%char && (c1 =? "/")%char then removeDuplicateSlashes t
          else String c (removeDuplicateSlashes t)
      | "" => b
      end
  end.

(** The second loop: [/./] becomes [/]. *)
Fixpoint removeSlashDotSlash (b : string) : string :=
  match b with
  | "" => ""
  | String c t =>
      match t with
      | String c1 (String c2 _ as t2) =>
          if (c =? "/")%char && (c1 =? ".")%char && (c2 =? "/")%char
          then removeSlashDotSlash t2
          else String c (removeSlashDotSlash t)
      | _ => String c (removeSlashDotSlash t)
      end
  end.

(** The output written so far, last byte first, cut back to before its
    last slash; nothing is left when it has none. *)
Fixpoint dropLastSegment (rout : string) : string :=
  match rout with
  | "" => ""
  | String c t => if (c =? "/")%char then t else dropLastSegment t
  end.

(** The third loop: [/seg/../] becomes [/].  [rout] is the part of the
    path before the current position, last byte first; it holds no
    [/../], so the search the loop restarts finds nothing in it. *)
Fixpoint removeSlashDotDotSlash (rout b : string) : string :=
  match b with
  | "" => String.rev_app rout ""
  | String c t =>
      match t with
      | String c1 (String c2 (String c3 _ as t3)) =>
          if (c =? "/")%char && (c1 =? ".")%char && (c2 =? ".")%char
             && (c3 =? "/")%char
          then removeSlashDotDotSlash (dropLastSegment rout) t3
          else removeSlashDotDotSlash (String c rout) t
      | _ => removeSlashDotDotSlash (String c rout) t
      end
  end.

(** The path without its last three bytes when these are [/..]. *)
Fixpoint beforeTrailingDotDot (b : string) : option string :=
  match b with
  | "" => None
  | String c t =>
      if String.eqb b "/.." then Some ""
      else String c <$> beforeTrailingDotDot t
  end.

(** The path up to and including its last slash. *)
Fixpoint throughLastSlash (s : string) : option string :=
  match s with
  | "" => None
  | String c t =>
      match throughLastSlash t with
      | Some p => Some (String c p)
      | None => if (c =? "/")%char then Some "/" else None
      end
  end.

(** The last step: a trailing [/seg/..] is cut back to the slash before
    [seg], to [/] when there is none. *)
Definition removeTrailingDotDot (b : string) : string :=
  match beforeTrailingDotDot b with
  | None => b
  | Some pre => default "/" (throughLastSlash pre)
  end.

(** [normalizePath] of fasthttp's [uri.go], on a system whose path
    separator is the slash: what [ctx.Path()] returns for a request
    whose target has the path [src], unless the server was started with
    [DisablePathNormalizing]. *)
Definition normalizePath (src : string) : string :=
  let b := addLeadingSlash src +:+ decodeArgAppendNoPlus src in
  let b := removeDuplicateSlashes b in
  let b := removeSlashDotSlash b in
  let b := removeSlashDotDotSlash "" b in
  removeTrailingDotDot b.


(** No [%], and no slash followed by a slash or a dot. *)
Fixpoint plainBytes (s : string) : bool :=
  match s with
  | "" => true
  | String c t =>
      negb (c =? "%")%char
      && (negb (c =? "/")%char
          || match t with
             | String c1 _ => negb (c1 =? "/")%char && negb (c1 =? ".")%char
             | "" => true
             end)
      && plainBytes t
  end.

(** A path that begins with a slash and has only plain bytes. *)
Definition isNormalPath (p : string) : bool :=
  match p with
  | String c _ => (c =? "/")%char && plainBytes p
  | "" => false
  end.

Definition MethodGet : string := "GET".

(** The context a handler gets for a request with header fields [hdrs],
    a target whose path is [pathOriginal] and whose query arguments are
    [args], and method [meth]: [ctx.Path()] returns the normalised path,
    [ctx.Method()] returns GET when no method was set. *)
Definition requestCtx (hdrs : gmap string string) (pathOriginal meth : string)
    (args : gmap string string) : RequestCtx :=
  newCtx hdrs (normalizePath pathOriginal)
    (if decide (meth = "") then MethodGet else meth) args.

End fasthttp.

Import fasthttp.

(** ** Ghost trace of the terminal actions

    The mediator ends every request in one of three ways.  Each call site
    appends one event; the events that stand for a handler call carry the
    context the handler was called with. *)

Inductive Terminal := Forward | Reject | FailClosed.

#[global] Instance Terminal_eq_dec : EqDecision Terminal.
Proof. solve_decision. Defined.

Inductive Event :=
| EvNext (ctx : RequestCtx)
| EvForbidden (ctx : RequestCtx)
| EvError.

Definition kind (ev : Event) : Terminal :=
  match ev with
  | EvNext _ => Forward
  | EvForbidden _ => Reject
  | EvError => FailClosed
  end.

(** How often a terminal action occurs in a trace. *)
Definition occurrences (k : Terminal) (tr : list Event) : nat :=
  length (filter (λ ev, kind ev = k) tr).

Section Authz.

(** [Env] is whatever the handler closures capture outside the request
    context (the [allowed] flag of the tests, a counter, ...). *)
Context {Env : Type}.

(** The casbin engine: an enforcer handle, Go's non-nil [error] values
    and [e.Enforce(sub, obj, act)], which returns [(bool, error)]. *)
Context {Enforcer error : Type}.
Variable Enforce : Enforcer → string → string → string → bool * option error.

(** [casbin.NewEnforcer(modelPath, policyPath)], returning an
    enforcer pointer and an [error]. *)
Variable NewEnforcer : string → string → Enforcer * option error.

(** A getter reads the request context and returns a string; by the
    contract of the package it has no effect of its own. *)
Definition SubjectGetter := RequestCtx → string.
Definition ObjectGetter := RequestCtx → string.
Definition ActionGetter := RequestCtx → string.

(** [fasthttp.RequestHandler]: [func(ctx *RequestCtx)]; it updates the
    context it is given and the variables it captured. *)
Definition RequestHandler := RequestCtx → Env → RequestCtx * Env.

Record Authorizer := mkAuthorizer {
  enforcer : Enforcer;
  getSubject : SubjectGetter;
  getObject : ObjectGetter;
  getAction : ActionGetter;
  forbiddenHandler : RequestHandler
}.

(** [Option]: [func(a *Authorizer)], an update of the authorizer. *)
Definition Option := Authorizer → Authorizer.

(** *** The state of one run and its monad *)

Record Run := mkRun {
  run_ctx : RequestCtx;
  run_env : Env;
  run_trace : list Event
}.

Definition M (A : Type) := Run → A * Run.

Definition ret {A} (x : A) : M A := λ s, (x, s).
Definition bind {A B} (m : M A) (k : A → M B) : M B :=
  λ s, let '(x, s') := m s in k x s'.

Notation "'do' x <- m ; k" := (bind m (λ x, k))
  (at level 10, x name, m at level 100, k at level 200).
Notation "m ;; k" := (bind m (λ _, k))
  (at level 100, right associativity).

(** Reading from the context, updating it, and the two ghost steps. *)
Definition read {A} (g : RequestCtx → A) : M A :=
  λ s, (g (run_ctx s), s).

Definition update (f : RequestCtx → RequestCtx) : M unit :=
  λ s, (tt, {| run_ctx := f (run_ctx s);
               run_env := run_env s;
               run_trace := run_trace s |}).

Definition emit (ev : Event) : M unit :=
  λ s, (tt, {| run_ctx := run_ctx s;
               run_env := run_env s;
               run_trace := run_trace s ++ [ev] |}).

(** [h(ctx)]: one call of a handler, recorded as [ev ctx]. *)
Definition call (ev : RequestCtx → Event) (h : RequestHandler) : M unit :=
  λ s, let '(c, e) := h (run_ctx s) (run_env s) in
       (tt, {| run_ctx := c;
               run_env := e;
               run_trace := run_trace s ++ [ev (run_ctx s)] |}).

(** *** authz.go *)

Definition defaultGetSubject : SubjectGetter :=
  λ ctx,
    let subject := Peek (Header (Req ctx)) "X-User" in
    if decide (subject = "") then "anonymous" else subject.

Definition defaultGetObject : ObjectGetter := λ ctx, Path ctx.

Definition defaultGetAction : ActionGetter := λ ctx, Method ctx.

Definition defaultForbiddenHandler : RequestHandler :=
  λ ctx env,
    (WriteString "Forbidden"
       (SetContentType "text/plain; charset=utf-8"
          (SetStatusCode StatusForbidden ctx)), env).

Definition NewAuthorizer (e : Enforcer) (opts : list Option) : Authorizer :=
  let a := {| enforcer := e;
              getSubject := defaultGetSubject;
              getObject := defaultGetObject;
              getAction := defaultGetAction;
              forbiddenHandler := defaultForbiddenHandler |} in
  fold_left (λ a opt, opt a) opts a.

(** A [*Authorizer] is [None] for nil, an [error] is [None] for nil. *)
Definition NewAuthorizerFromFiles (modelPath policyPath : string)
    (opts : list Option) : option Authorizer * option error :=
  let '(e, err) := NewEnforcer modelPath policyPath in
  match err with
  | Some _ => (None, err)
  | None => (Some (NewAuthorizer e opts), None)
  end.

(** What the engine answers for the triple the getters derive from a
    request. *)
Definition verdict (a : Authorizer) (ctx : RequestCtx) : bool * option error :=
  Enforce (enforcer a) (getSubject a ctx) (getObject a ctx) (getAction a ctx).

(** The body of the handler [Middleware] returns. *)
Definition authorize (a : Authorizer) (next : RequestHandler) : M unit :=
  do subject <- read (getSubject a);
  do object <- read (getObject a);
  do action <- read (getAction a);
  let '(ok, err) := Enforce (enforcer a) subject object action in
  match err with
  | Some _ =>
      emit EvError ;;
      update (SetStatusCode StatusInternalServerError) ;;
      update (SetContentType "text/plain; charset=utf-8") ;;
      update (WriteString "Authorization error")
  | None =>
      if negb ok then call EvForbidden (forbiddenHandler a)
      else call EvNext next
  end.

(** One request served on context [ctx] with captured state [env]. *)
Definition serve (a : Authorizer) (next : RequestHandler)
    (ctx : RequestCtx) (env : Env) : Run :=
  snd (authorize a next {| run_ctx := ctx; run_env := env; run_trace := [] |}).

Definition Middleware (a : Authorizer) (next : RequestHandler) : RequestHandler :=
  λ ctx env, let s := serve a next ctx env in (run_ctx s, run_env s).

Definition WithSubjectGetter (getter : SubjectGetter) : Option :=
  λ a, {| enforcer := enforcer a;
          getSubject := getter;
          getObject := getObject a;
          getAction := getAction a;
          forbiddenHandler := forbiddenHandler a |}.

Definition WithObjectGetter (getter : ObjectGetter) : Option :=
  λ a, {| enforcer := enforcer a;
          getSubject := getSubject a;
          getObject := getter;
          getAction := getAction a;
          forbiddenHandler := forbiddenHandler a |}.

Definition WithActionGetter (getter : ActionGetter) : Option :=
  λ a, {| enforcer := enforcer a;
          getSubject := getSubject a;
          getObject := getObject a;
          getAction := getter;
          forbiddenHandler := forbiddenHandler a |}.

Definition WithForbiddenHandler (handler : RequestHandler) : Option :=
  λ a, {| enforcer := enforcer a;
          getSubject := getSubject a;
          getObject := getObject a;
          getAction := getAction a;
          forbiddenHandler := handler |}.

Definition AuthorizerMiddleware (e : Enforcer) (opts : list Option)
    : RequestHandler → RequestHandler :=
  let a := NewAuthorizer e opts in Middleware a.

End Authz.

Arguments Authorizer : clear implicits.
Arguments RequestHandler : clear implicits.
Arguments Option : clear implicits.
Arguments Run : clear implicits.

(** Two requests served one after the other by the same middleware: each
    has its own context, the captured state is carried over. *)
Definition serveTwice {Env Enforcer error : Type}
    (Enforce : Enforcer → string → string → string → bool * option error)
    (a : Authorizer Env Enforcer) (next : RequestHandler Env)
    (ctx1 ctx2 : RequestCtx) (env : Env) : Run Env * Run Env :=
  let s1 := serve Enforce a next ctx1 env in
  let s2 := serve Enforce a next ctx2 (run_env s1) in
  (s1, s2).

(** The response the error branch leaves behind. *)
Definition errorResponse (ctx : RequestCtx) : RequestCtx :=
  WriteString "Authorization error"
    (SetContentType "text/plain; charset=utf-8"
       (SetStatusCode StatusInternalServerError ctx)).

(** An option that leaves a slot of the authorizer alone. *)
Section Frames.
Context {Env Enforcer : Type}.
Implicit Type o : Option Env Enforcer.

Definition keepsEnforcer o : Prop := ∀ a, enforcer (o a) = enforcer a.
Definition keepsSubject o : Prop := ∀ a, getSubject (o a) = getSubject a.
Definition keepsObject o : Prop := ∀ a, getObject (o a) = getObject a.
Definition keepsAction o : Prop := ∀ a, getAction (o a) = getAction a.
Definition keepsForbidden o : Prop :=
  ∀ a, forbiddenHandler (o a) = forbiddenHandler a.
End Frames.

(** Two runs with the same outcome: the same terminal action, the same
    status code and the same body. *)
Definition sameOutcome {Env} (s1 s2 : Run Env) : Prop :=
  kind <$> run_trace s1 = kind <$> run_trace s2
  ∧ StatusCode (Resp (run_ctx s1)) = StatusCode (Resp (run_ctx s2))
  ∧ Body (Resp (run_ctx s1)) = Body (Resp (run_ctx s2)).

(** The terminal action that goes with an answer of the engine. *)
Definition terminalOf {error} (v : bool * option error) : Terminal :=
  match v.2 with
  | Some _ => FailClosed
  | None => if v.1 then Forward else Reject
  end.

(** Whether an answer of the engine lets the request through. *)
Definition allows {error} (v : bool * option error) : bool :=
  match v.2 with
  | Some _ => false
  | None => v.1
  end.

(** ** A concrete engine and the handlers of the test suite *)

Module Example.

(** A basic ACL engine (request and policy are [sub, obj, act], the
    matcher compares them field by field), and an engine whose matcher
    fails to evaluate whatever it is asked. *)
Inductive Engine :=
| Acl (rules : list (string * string * string))
| Faulty (answer : bool).

Definition Enforce (e : Engine) (sub obj act : string) : bool * option string :=
  match e with
  | Acl rules => (bool_decide ((sub, obj, act) ∈ rules), None)
  | Faulty answer => (answer, Some "invalid matcher expression")
  end.

(** [authz_policy.csv] of the README. *)
Definition policy : list (string * string * string) :=
  [("alice", "/", "GET"); ("alice", "/data1", "GET"); ("bob", "/data2", "POST")].

(** An engine constructor that finds the two files of the test suite
    and nothing else. *)
Definition NewEnforcer (modelPath policyPath : string) : Engine * option string :=
  if decide (modelPath = "authz_model.conf" ∧ policyPath = "authz_policy.csv")
  then (Acl policy, None)
  else (Acl [], Some "open: no such file or directory").

(** The [next] of [runOnce]: it sets the captured flag [allowed]. *)
Definition setAllowed : RequestHandler bool := λ ctx _, (ctx, true).

(** [runOnce] of the tests; the request URI is given as path and
    query arguments, and the context is the one fasthttp makes of them. *)
Definition runOnce (a : Authorizer bool Engine) (user path meth : string)
    (args : gmap string string) : bool * Z * string :=
  let h := Middleware Enforce a setAllowed in
  let hdrs := if decide (user = "") then ∅ else {[ "X-User" := user ]} in
  let ctx := requestCtx hdrs path meth args in
  let '(ctx', allowed) := h ctx false in
  (allowed, StatusCode (Resp ctx'), Body (Resp ctx')).

(** The handler of [TestMiddleware_CustomForbiddenHandler]. *)
Definition teapot {Env} : RequestHandler Env :=
  λ ctx env, (WriteString "nope" (SetStatusCode 418 ctx), env).

(** The getters of [TestMiddleware_CustomGetters]. *)
Definition queryUser : RequestCtx → string := λ ctx, PeekArg (Req ctx) "u".
Definition constData1 : RequestCtx → string := λ _, "/data1".
Definition constGet : RequestCtx → string := λ _, "GET".

(** A rejection handler that counts the rejections it has served in a
    captured variable and answers 429 from the second one on. *)
Definition throttle : RequestHandler nat :=
  λ ctx n,
    if decide (n = 0%nat)
    then (WriteString "Forbidden" (SetStatusCode StatusForbidden ctx), S n)
    else (WriteString "Too Many Requests" (SetStatusCode 429 ctx), S n).

Definition skip {Env} : RequestHandler Env := λ ctx env, (ctx, env).

(** A [next] that counts its calls in a captured variable. *)
Definition countCalls : RequestHandler nat := λ ctx n, (ctx, S n).

Definition aliceGetsRoot : RequestCtx :=
  newCtx {[ "X-User" := "alice" ]} "/" "GET" ∅.

Definition bobGetsRoot : RequestCtx :=
  newCtx {[ "X-User" := "bob" ]} "/" "GET" ∅.

(** The same request of bob with a query argument. *)
Definition bobGetsRootPage2 : RequestCtx :=
  newCtx {[ "X-User" := "bob" ]} "/" "GET" {[ "page" := "2" ]}.

(** The authorizers of the scenarios. *)
Definition fromFiles (opts : list (Option bool Engine))
    : option (Authorizer bool Engine) * option string :=
  NewAuthorizerFromFiles NewEnforcer "authz_model.conf" "authz_policy.csv" opts.

Definition plain {Env} : Authorizer Env Engine := NewAuthorizer (Acl policy) [].

Definition faulty {Env} : Authorizer Env Engine := NewAuthorizer (Faulty true) [].

Definition withTeapot {Env} : Authorizer Env Engine :=
  NewAuthorizer (Acl policy) [WithForbiddenHandler teapot].

Definition throttled : Authorizer nat Engine :=
  NewAuthorizer (Acl policy) [WithForbiddenHandler throttle].

(** The request of bob served twice by [throttled], no rejection served
    before. *)
Definition twoDenials : Run nat * Run nat :=
  serveTwice Enforce throttled skip bobGetsRoot bobGetsRoot 0%nat.

End Example.

(** ** example/main.go

    The example program of the repository: a handler with a few routes,
    wrapped by the middleware, and a self-test that is run before the
    server starts.  What fasthttp makes of a request URI and of a method
    set on a fresh context is a parameter. *)

Module main.

Record testCase := mkTestCase {
  user : string;
  path : string;
  method : string;
  expected : bool;
  desc : string
}.

(** The lines the self-test logs, with the arguments of their formats. *)
Inductive LogLine :=
| LogRunning
| LogPass (n : Z) (desc : string)
| LogFail (n : Z) (desc : string) (expected actual : bool)
| LogResults (passed total : Z).

Definition isPass (l : LogLine) : bool :=
  match l with LogPass _ _ => true | _ => false end.

(** The line logged for test number [n] with result [result]. *)
Definition reportLine (n : Z) (tc : testCase) (result : bool) : LogLine :=
  if decide (result = expected tc)
  then LogPass n (desc tc)
  else LogFail n (desc tc) (expected tc) result.

(** The handler of [main]; [fmt.Fprintf(ctx, ...)] appends the formatted
    text to the response body. *)
Definition handler {Env} : RequestHandler Env :=
  λ ctx env,
    let path := Path ctx in
    let user := Peek (Header (Req ctx)) "X-User" in
    let user := if decide (user = "") then "anonymous" else user in
    (if decide (path = "/") then
       WriteString ("Welcome to the home page! User: " +:+ user) ctx
     else if decide (path = "/data1") then
       WriteString ("Data1 page - User: " +:+ user) ctx
     else if decide (path = "/data2") then
       WriteString ("Data2 page - User: " +:+ user +:+ ", Method: " +:+ Method ctx) ctx
     else if decide (path = "/api/users") then
       WriteString ("Users API - User: " +:+ user) ctx
     else
       WriteString ("Page not found: " +:+ path) (SetStatusCode StatusNotFound ctx),
     env).

(** The paths [handler] has a case for. *)
Definition routes : list string := ["/"; "/data1"; "/data2"; "/api/users"].

Definition testCases : list testCase :=
  [ mkTestCase "alice" "/" "GET" true "alice can access root path";
    mkTestCase "alice" "/data1" "GET" true "alice can access /data1";
    mkTestCase "alice" "/data2" "GET" false "alice cannot access /data2";
    mkTestCase "alice" "/" "POST" false "alice cannot POST to root path";
    mkTestCase "bob" "/" "GET" false "bob cannot access root path";
    mkTestCase "bob" "/data1" "GET" false "bob cannot access /data1";
    mkTestCase "bob" "/data2" "POST" true "bob can POST to /data2";
    mkTestCase "bob" "/data2" "GET" false "bob cannot GET /data2";
    mkTestCase "" "/" "GET" false "anonymous user cannot access any path";
    mkTestCase "anonymous" "/" "GET" false "anonymous user cannot access any path";
    mkTestCase "alice" "/nonexistent" "GET" false "alice cannot access non-existent path";
    mkTestCase "bob" "/api/users" "GET" false "bob cannot access unauthorized API path" ].

Section Program.

(** [Env]: what the handlers of the authorizer captured where they were
    written. *)
Context {Env Enforcer error : Type}.
Variable Enforce : Enforcer → string → string → string → bool * option error.

(** [ctx.Request.SetRequestURI(uri)] on a fresh context: the path and the
    query arguments the context returns afterwards. *)
Variable requestURI : string → string * gmap string string.

(** [ctx.Request.Header.SetMethod(m)] on a fresh context: the method the
    context returns afterwards. *)
Variable requestMethod : string → string.

(** [protected := a.Middleware(handler)]. *)
Definition protected (a : Authorizer Env Enforcer) : RequestHandler Env :=
  Middleware Enforce a handler.

(** The context [testPermission] builds for a test case. *)
Definition testCtx (tc : testCase) : RequestCtx :=
  let hdrs := if decide (user tc = "") then ∅ else {[ "X-User" := user tc ]} in
  let '(p, args) := requestURI (path tc) in
  newCtx hdrs p (requestMethod (method tc)) args.

(** A handler, and an authorizer, in a scope that has a local variable
    of type [L] besides: the handlers of the authorizer were written
    elsewhere and cannot reach it. *)
Definition outOfScope {L} (h : RequestHandler Env) : RequestHandler (Env * L) :=
  λ ctx '(env, l), let '(ctx', env') := h ctx env in (ctx', (env', l)).

Definition inScope {L} (a : Authorizer Env Enforcer) : Authorizer (Env * L) Enforcer :=
  {| enforcer := enforcer a;
     getSubject := getSubject a;
     getObject := getObject a;
     getAction := getAction a;
     forbiddenHandler := outOfScope (forbiddenHandler a) |}.

(** [testPermission]: the local variable is the flag [allowed], which
    [next] captures.  The result comes with the state the handlers of the
    authorizer are left in. *)
Definition testPermission (a : Authorizer Env Enforcer) (env : Env)
    (tc : testCase) : bool * Env :=
  let ctx := testCtx tc in
  let allowed := false in
  let next : RequestHandler (Env * bool) := λ ctx '(env, _), (ctx, (env, true)) in
  let handler := Middleware Enforce (inScope a) next in
  let '(_, (env', allowed')) := handler ctx (env, allowed) in
  (allowed', env').

(** The variables of the loop of [runPermissionTests], and the state of
    the authorizer's handlers. *)
Record loopState := mkLoopState {
  passed : Z;
  index : Z;
  logged : list LogLine;
  captured : Env
}.

(** One turn of the loop over the test cases. *)
Definition checkCase (a : Authorizer Env Enforcer) (st : loopState)
    (tc : testCase) : loopState :=
  let '(result, env') := testPermission a (captured st) tc in
  if decide (result = expected tc)
  then {| passed := passed st + 1;
          index := index st + 1;
          logged := logged st ++ [LogPass (index st + 1) (desc tc)];
          captured := env' |}
  else {| passed := passed st;
          index := index st + 1;
          logged := logged st
                    ++ [LogFail (index st + 1) (desc tc) (expected tc) result];
          captured := env' |}.

(** [runPermissionTests], as the lines it logs. *)
Definition runPermissionTests (a : Authorizer Env Enforcer) (env : Env)
    : list LogLine :=
  let st0 := {| passed := 0; index := 0; logged := [LogRunning]; captured := env |} in
  let total := Z.of_nat (length testCases) in
  let st := fold_left (checkCase a) testCases st0 in
  logged st ++ [LogResults (passed st) total].

(** A test case on which the engine's answer is the expected one. *)
Definition agrees (a : Authorizer Env Enforcer) (tc : testCase) : Prop :=
  allows (verdict Enforce a (testCtx tc)) = expected tc.

#[global] Instance agrees_dec a tc : Decision (agrees a tc).
Proof. unfold agrees. apply _. Defined.

End Program.

(** A transport that takes a URI without a query as its path, and keeps
    the method. *)
Definition pathOnly (uri : string) : string * gmap string string := (uri, ∅).
Definition sameMethod (m : string) : string := m.

End main.

(** ** More requests and authorizers for the scenarios *)

Module Fixtures.
Import Example.

(** An authorizer whose policy has the first rule of the README only. *)
Definition rootOnly {Env} : Authorizer Env Engine :=
  NewAuthorizer (Acl [("alice", "/", "GET")]) [].

(** An authorizer whose policy lets alice get a path that is not a route
    of the example handler. *)
Definition withOldPage {Env} : Authorizer Env Engine :=
  NewAuthorizer (Acl [("alice", "/old", "GET")]) [].

Definition aliceGetsData1 : RequestCtx :=
  newCtx {[ "X-User" := "alice" ]} "/data1" "GET" ∅.

Definition aliceGetsOldPage : RequestCtx :=
  newCtx {[ "X-User" := "alice" ]} "/old" "GET" ∅.

Definition threeOptions : list (Option bool Engine) :=
  [WithSubjectGetter queryUser; WithForbiddenHandler teapot; WithActionGetter constGet].

Definition threeOptionsSwapped : list (Option bool Engine) :=
  [WithForbiddenHandler teapot; WithSubjectGetter queryUser; WithActionGetter constGet].

Definition constAlice : RequestCtx → string := λ _, "alice".

(** The self-test of the example on the toy engine. *)
Definition selfTest : list main.LogLine :=
  main.runPermissionTests Enforce main.pathOnly main.sameMethod (plain (Env:=unit)) tt.

End Fixtures.

(** ** Properties *)

Section Properties.

Context {Env Enforcer error : Type}.
Variable Enforce : Enforcer → string → string → string → bool * option error.
Variable NewEnforcer : string → string → Enforcer * option error.

Implicit Types (a : Authorizer Env Enforcer) (next : RequestHandler Env).
Implicit Types (ctx : RequestCtx) (env : Env).

Local Abbreviation Opt := (Option Env Enforcer).

(** *** The three branches of [authorize] *)

Lemma serve_error a next ctx env ok err :
  verdict Enforce a ctx = (ok, Some err) →
  serve Enforce a next ctx env =
    {| run_ctx := errorResponse ctx; run_env := env; run_trace := [EvError] |}.
Proof.
  unfold verdict. intros H. unfold serve, authorize, bind, read; simpl.
  rewrite H. reflexivity.
Qed.

Lemma serve_denied a next ctx env :
  verdict Enforce a ctx = (false, None) →
  serve Enforce a next ctx env =
    {| run_ctx := (forbiddenHandler a ctx env).1;
       run_env := (forbiddenHandler a ctx env).2;
       run_trace := [EvForbidden ctx] |}.
Proof.
  unfold verdict. intros H. unfold serve, authorize, bind, read, call; simpl.
  rewrite H; simpl.
  destruct (forbiddenHandler a ctx env); reflexivity.
Qed.

Lemma serve_allowed a next ctx env :
  verdict Enforce a ctx = (true, None) →
  serve Enforce a next ctx env =
    {| run_ctx := (next ctx env).1;
       run_env := (next ctx env).2;
       run_trace := [EvNext ctx] |}.
Proof.
  unfold verdict. intros H. unfold serve, authorize, bind, read, call; simpl.
  rewrite H; simpl.
  destruct (next ctx env); reflexivity.
Qed.

Lemma Middleware_serve a next ctx env :
  Middleware Enforce a next ctx env =
    (run_ctx (serve Enforce a next ctx env), run_env (serve Enforce a next ctx env)).
Proof. reflexivity. Qed.

Lemma pair_eta {A B} (p : A * B) : (p.1, p.2) = p.
Proof. by destruct p. Qed.

(** What is written in the error branch, field by field. *)
Lemma errorResponse_fields ctx :
  Req (errorResponse ctx) = Req ctx
  ∧ statusCode (Resp (errorResponse ctx)) = 500
  ∧ contentType (Resp (errorResponse ctx)) = "text/plain; charset=utf-8"
  ∧ body (Resp (errorResponse ctx)) = body (Resp ctx) +:+ "Authorization error".
Proof. by repeat split. Qed.

Lemma append_nonempty (s t : string) : t ≠ "" → s +:+ t ≠ "".
Proof. destruct s; simpl; [done | discriminate]. Qed.

Lemma Middleware_denied a next ctx env :
  verdict Enforce a ctx = (false, None) →
  Middleware Enforce a next ctx env = forbiddenHandler a ctx env.
Proof.
  intros H. rewrite Middleware_serve, (serve_denied _ _ _ _ H).
  cbn [run_ctx run_env]. apply pair_eta.
Qed.

(** *** The engine fails *)

(** C1: whenever [Enforce] returns a non-nil error, whatever boolean
    comes with it, the middleware writes the fixed response (status 500,
    which is in the server-error class, content type
    [text/plain; charset=utf-8], the bytes [Authorization error], a body
    that is non-empty and differs from what the default forbidden handler
    would leave), and calls neither [next] nor the configured forbidden
    handler: the only event is [EvError], and the outcome is
    [errorResponse ctx] with the captured state untouched. *)
Theorem enforce_error_fails_closed a next ctx env ok err :
  verdict Enforce a ctx = (ok, Some err) →
  let s := serve Enforce a next ctx env in
  run_trace s = [EvError]
  ∧ occurrences Forward (run_trace s) = 0%nat
  ∧ occurrences Reject (run_trace s) = 0%nat
  ∧ Middleware Enforce a next ctx env = (errorResponse ctx, env)
  ∧ Req (run_ctx s) = Req ctx
  ∧ StatusCode (Resp (run_ctx s)) = StatusInternalServerError
  ∧ 500 ≤ StatusCode (Resp (run_ctx s)) < 600
  ∧ contentType (Resp (run_ctx s)) = "text/plain; charset=utf-8"
  ∧ Body (Resp (run_ctx s)) = Body (Resp ctx) +:+ "Authorization error"
  ∧ (Body (Resp ctx) = "" → Body (Resp (run_ctx s)) = "Authorization error")
  ∧ Body (Resp (run_ctx s)) ≠ ""
  ∧ Body (Resp (run_ctx s)) ≠ Body (Resp (defaultForbiddenHandler ctx env).1).
Proof.
  intros H s. subst s. rewrite Middleware_serve, (serve_error _ _ _ _ _ _ H).
  cbn [run_ctx run_env run_trace].
  destruct (errorResponse_fields ctx) as (Hreq & Hst & Hct & Hbody).
  assert (HS : StatusCode (Resp (errorResponse ctx)) = 500).
  { unfold StatusCode. rewrite Hst. reflexivity. }
  unfold Body. rewrite Hbody, HS.
  split_and!; try done.
  - by intros ->.
  - by apply append_nonempty.
  - cbn. intros Heq. by apply (inj _) in Heq.
Qed.

(** *** The engine allows *)

(** C2: whenever [Enforce] returns [(true, nil)] for the derived triple,
    [next] is called exactly once, with the context the middleware was
    given, and the middleware writes nothing of its own: its outcome is
    the outcome of [next] on that context. *)
Theorem allowed_runs_next_once a next ctx env :
  verdict Enforce a ctx = (true, None) →
  let s := serve Enforce a next ctx env in
  run_trace s = [EvNext ctx]
  ∧ occurrences Forward (run_trace s) = 1%nat
  ∧ occurrences Reject (run_trace s) = 0%nat
  ∧ occurrences FailClosed (run_trace s) = 0%nat
  ∧ Middleware Enforce a next ctx env = next ctx env.
Proof.
  intros H s. subst s. rewrite Middleware_serve, (serve_allowed _ _ _ _ H).
  cbn [run_ctx run_env run_trace]. by rewrite pair_eta.
Qed.

(** *** The engine denies *)

(** C3: whenever [Enforce] returns [(false, nil)], [next] is not called
    (no [next] changes the outcome), the configured forbidden handler is
    called once on the context the middleware was given, and the outcome
    is the handler's, status code and body included. *)
Theorem denied_runs_forbidden_handler a next ctx env :
  verdict Enforce a ctx = (false, None) →
  let s := serve Enforce a next ctx env in
  run_trace s = [EvForbidden ctx]
  ∧ occurrences Forward (run_trace s) = 0%nat
  ∧ occurrences Reject (run_trace s) = 1%nat
  ∧ Middleware Enforce a next ctx env = forbiddenHandler a ctx env
  ∧ StatusCode (Resp (Middleware Enforce a next ctx env).1)
      = StatusCode (Resp (forbiddenHandler a ctx env).1)
  ∧ Body (Resp (Middleware Enforce a next ctx env).1)
      = Body (Resp (forbiddenHandler a ctx env).1)
  ∧ ∀ next', Middleware Enforce a next' ctx env = Middleware Enforce a next ctx env.
Proof.
  intros H s. subst s.
  assert (HM : ∀ n, Middleware Enforce a n ctx env = forbiddenHandler a ctx env).
  { intros n. by apply Middleware_denied. }
  rewrite (serve_denied _ _ _ _ H), !HM. cbn [run_trace].
  repeat split; done.
Qed.

(** *** One terminal action per request *)

(** C4: every request ends in exactly one of three ways, and the outcome
    of the middleware is the outcome of that one action: [next] was called
    (and the outcome is what [next] returns), or the forbidden handler
    was called (and the outcome is what it returns), or the fixed error
    response was written.  The trace has one event, so the three exclude
    one another. *)
Theorem exactly_one_terminal_action a next ctx env :
  let s := serve Enforce a next ctx env in
  Middleware Enforce a next ctx env = (run_ctx s, run_env s)
  ∧ ((run_trace s = [EvNext ctx] ∧ (run_ctx s, run_env s) = next ctx env)
     ∨ (run_trace s = [EvForbidden ctx]
        ∧ (run_ctx s, run_env s) = forbiddenHandler a ctx env)
     ∨ (run_trace s = [EvError]
        ∧ (run_ctx s, run_env s) = (errorResponse ctx, env)))
  ∧ length (run_trace s) = 1%nat
  ∧ (occurrences Forward (run_trace s) + occurrences Reject (run_trace s)
     + occurrences FailClosed (run_trace s) = 1)%nat.
Proof.
  intros s. subst s. split; [reflexivity|].
  destruct (verdict Enforce a ctx) as [ok [err|]] eqn:H.
  - rewrite (serve_error _ _ _ _ _ _ H). cbn [run_ctx run_env run_trace]. auto.
  - destruct ok.
    + rewrite (serve_allowed _ _ _ _ H). cbn [run_ctx run_env run_trace].
      rewrite pair_eta. auto.
    + rewrite (serve_denied _ _ _ _ H). cbn [run_ctx run_env run_trace].
      rewrite pair_eta. auto 6.
Qed.

(** *** The default extractors *)

(** C5: the default subject getter returns [anonymous] when the request
    has no [X-User] header or an empty one, and the value of the header,
    as it is, when the header is there and not empty.  It is a total
    function of the request, and its result is never the empty string. *)
Theorem default_subject_header_or_anonymous (e : Enforcer) ctx :
  let subject := getSubject (NewAuthorizer (Env:=Env) e []) ctx in
  (fields (Header (Req ctx)) !! "X-User" = None → subject = "anonymous")
  ∧ (fields (Header (Req ctx)) !! "X-User" = Some "" → subject = "anonymous")
  ∧ (∀ v, fields (Header (Req ctx)) !! "X-User" = Some v → v ≠ "" → subject = v)
  ∧ subject ≠ "".
Proof.
  cbn. unfold defaultGetSubject, Peek.
  destruct (fields (Header (Req ctx)) !! "X-User") as [v|] eqn:Hv; cbn.
  - case_decide as Hd; subst; repeat split; try done.
    all: intros; simplify_eq; done.
  - by repeat split.
Qed.

(** Paths in normal form go through [normalizePath] unchanged. *)

Lemma plainBytes_cons c t :
  plainBytes (String c t) = true →
  (c =? "%")%char = false
  ∧ ((c =? "/")%char = true →
     match t with
     | String c1 _ => (c1 =? "/")%char = false ∧ (c1 =? ".")%char = false
     | "" => True
     end)
  ∧ plainBytes t = true.
Proof.
  cbn. rewrite !andb_true_iff, orb_true_iff, !negb_true_iff.
  intros [[H1 H2] H3]. split_and!; [done | | done].
  intros Hs. destruct H2 as [H2 | H2]; [congruence|].
  destruct t; [done|]. by rewrite andb_true_iff, !negb_true_iff in H2.
Qed.

Lemma decode_plain s : plainBytes s = true → decodeArgAppendNoPlus s = s.
Proof.
  induction s as [|c t IH]; [done|].
  intros (H1 & _ & H3)%plainBytes_cons. cbn. rewrite H1. by rewrite IH.
Qed.

Lemma dedupe_plain s : plainBytes s = true → removeDuplicateSlashes s = s.
Proof.
  induction s as [|c t IH]; [done|].
  intros (_ & H2 & H3)%plainBytes_cons. specialize (IH H3).
  destruct t as [|c1 t1]; [done|].
  change (removeDuplicateSlashes (String c (String c1 t1)))
    with (if (c =? "/")%char && (c1 =? "/")%char
          then removeDuplicateSlashes (String c1 t1)
          else String c (removeDuplicateSlashes (String c1 t1))).
  rewrite IH. destruct (c =? "/")%char; [|done].
  by destruct (H2 eq_refl) as [-> _].
Qed.

Lemma dotslash_plain s : plainBytes s = true → removeSlashDotSlash s = s.
Proof.
  induction s as [|c t IH]; [done|].
  intros (_ & H2 & H3)%plainBytes_cons. specialize (IH H3).
  destruct t as [|c1 [|c2 t2]].
  - done.
  - change (removeSlashDotSlash (String c (String c1 "")))
      with (String c (removeSlashDotSlash (String c1 ""))).
    by rewrite IH.
  - change (removeSlashDotSlash (String c (String c1 (String c2 t2))))
      with (if (c =? "/")%char && (c1 =? ".")%char && (c2 =? "/")%char
            then removeSlashDotSlash (String c2 t2)
            else String c (removeSlashDotSlash (String c1 (String c2 t2)))).
    rewrite IH. destruct (c =? "/")%char; [|done].
    by destruct (H2 eq_refl) as [_ ->].
Qed.

Lemma dotdot_plain s rout :
  plainBytes s = true → removeSlashDotDotSlash rout s = String.rev_app rout s.
Proof.
  revert rout. induction s as [|c t IH]; intros rout; [done|].
  intros (_ & H2 & H3)%plainBytes_cons.
  assert (Hstep : removeSlashDotDotSlash rout (String c t)
                  = removeSlashDotDotSlash (String c rout) t).
  { destruct t as [|c1 [|c2 [|c3 t3]]]; try reflexivity.
    change (removeSlashDotDotSlash rout
              (String c (String c1 (String c2 (String c3 t3)))))
      with (if (c =? "/")%char && (c1 =? ".")%char && (c2 =? ".")%char
               && (c3 =? "/")%char
            then removeSlashDotDotSlash (dropLastSegment rout) (String c3 t3)
            else removeSlashDotDotSlash (String c rout)
                   (String c1 (String c2 (String c3 t3)))).
    destruct (c =? "/")%char; [|done].
    by destruct (H2 eq_refl) as [_ ->]. }
  rewrite Hstep. by rewrite IH.
Qed.

Lemma trailing_plain s : plainBytes s = true → beforeTrailingDotDot s = None.
Proof.
  induction s as [|c t IH]; [done|].
  intros (_ & H2 & H3)%plainBytes_cons.
  cbn [beforeTrailingDotDot]. destruct (String.eqb (String c t) "/..") eqn:He.
  - apply String.eqb_eq in He. simplify_eq. by destruct (H2 eq_refl).
  - by rewrite IH.
Qed.

Lemma normalizePath_normal p : isNormalPath p = true → normalizePath p = p.
Proof.
  destruct p as [|c t]; [done|]. unfold isNormalPath.
  intros [Hc Hp]%andb_true_iff. unfold normalizePath, addLeadingSlash.
  rewrite Hc. change ("" +:+ ?x) with x. rewrite (decode_plain _ Hp).
  rewrite (dedupe_plain _ Hp), (dotslash_plain _ Hp), (dotdot_plain _ _ Hp).
  cbn [String.rev_app]. unfold removeTrailingDotDot. by rewrite (trailing_plain _ Hp).
Qed.

(** C6, as amended: the default object getter returns [ctx.Path()] and
    changes nothing in it.  For a request whose target has the path [p]
    that is the path fasthttp makes of [p]: a leading slash is added when
    there is none, [%XX] is decoded, duplicate slashes are collapsed and
    [/./], [/seg/../] and a trailing [/seg/..] are removed.  A path that
    begins with a slash and has no [%], no slash followed by a slash and
    no slash followed by a dot is returned exactly as received, a
    trailing slash included. *)
Theorem default_object_is_normalized_path (e : Enforcer)
    (hdrs : gmap string string) (p meth : string) (args : gmap string string) :
  getObject (NewAuthorizer (Env:=Env) e []) (requestCtx hdrs p meth args)
    = normalizePath p
  ∧ (isNormalPath p = true →
     getObject (NewAuthorizer (Env:=Env) e []) (requestCtx hdrs p meth args) = p)
  ∧ ∀ ctx, getObject (NewAuthorizer (Env:=Env) e []) ctx = Path ctx.
Proof.
  split_and!; [done | | done].
  intros Hp. cbn. unfold defaultGetObject, Path. cbn.
  by apply normalizePath_normal.
Qed.

(** *** Construction *)

(** C8: when [casbin.NewEnforcer] returns an error, the constructor
    returns that error and a nil authorizer; when it returns none, the
    constructor returns the authorizer built on the new enforcer and a
    nil error. *)
Theorem from_files_propagates_error (modelPath policyPath : string)
    (opts : list (Option Env Enforcer)) :
  (∀ err, (NewEnforcer modelPath policyPath).2 = Some err →
     NewAuthorizerFromFiles NewEnforcer modelPath policyPath opts
       = (None, Some err))
  ∧ ((NewEnforcer modelPath policyPath).2 = None →
     NewAuthorizerFromFiles NewEnforcer modelPath policyPath opts
       = (Some (NewAuthorizer (NewEnforcer modelPath policyPath).1 opts), None)).
Proof.
  unfold NewAuthorizerFromFiles.
  destruct (NewEnforcer modelPath policyPath) as [e [err|]]; cbn; split;
    intros; simplify_eq; done.
Qed.

(** An option list is applied left to right. *)
Lemma NewAuthorizer_app (e : Enforcer) (opts rest : list (Option Env Enforcer)) :
  NewAuthorizer e (opts ++ rest)
    = fold_left (λ a opt, opt a) rest (NewAuthorizer e opts).
Proof. unfold NewAuthorizer. apply fold_left_app. Qed.

(** Options that leave a field alone leave it alone together. *)
Lemma fold_keeps {T} (proj : Authorizer Env Enforcer → T)
    (rest : list (Option Env Enforcer)) a :
  Forall (λ o, ∀ a, proj (o a) = proj a) rest →
  proj (fold_left (λ a opt, opt a) rest a) = proj a.
Proof.
  intros H. revert a. induction H as [|o rest Ho _ IH]; intros a; cbn.
  - reflexivity.
  - by rewrite IH, Ho.
Qed.

(** C9: each of the four slots has its own option.  An option sets its
    slot and leaves the other three and the enforcer as they were, so a
    constructor given one option holds the defaults in the other three
    slots; and whatever list of options is given, a slot none of them
    targets holds its default. *)
Theorem option_overrides_only_its_slot (e : Enforcer)
    (gs go ga : RequestCtx → string) (h : RequestHandler Env)
    (opts : list (Option Env Enforcer)) :
  (keepsEnforcer (WithSubjectGetter gs : Opt) ∧ keepsObject (WithSubjectGetter gs : Opt)
   ∧ keepsAction (WithSubjectGetter gs : Opt) ∧ keepsForbidden (WithSubjectGetter gs : Opt))
  ∧ (keepsEnforcer (WithObjectGetter go : Opt) ∧ keepsSubject (WithObjectGetter go : Opt)
     ∧ keepsAction (WithObjectGetter go : Opt) ∧ keepsForbidden (WithObjectGetter go : Opt))
  ∧ (keepsEnforcer (WithActionGetter ga : Opt) ∧ keepsSubject (WithActionGetter ga : Opt)
     ∧ keepsObject (WithActionGetter ga : Opt) ∧ keepsForbidden (WithActionGetter ga : Opt))
  ∧ (keepsEnforcer (WithForbiddenHandler h : Opt) ∧ keepsSubject (WithForbiddenHandler h : Opt)
     ∧ keepsObject (WithForbiddenHandler h : Opt) ∧ keepsAction (WithForbiddenHandler h : Opt))
  ∧ NewAuthorizer e [WithSubjectGetter gs : Opt]
      = mkAuthorizer e gs defaultGetObject defaultGetAction defaultForbiddenHandler
  ∧ NewAuthorizer e [WithObjectGetter go : Opt]
      = mkAuthorizer e defaultGetSubject go defaultGetAction defaultForbiddenHandler
  ∧ NewAuthorizer e [WithActionGetter ga : Opt]
      = mkAuthorizer e defaultGetSubject defaultGetObject ga defaultForbiddenHandler
  ∧ NewAuthorizer e [WithForbiddenHandler h : Opt]
      = mkAuthorizer e defaultGetSubject defaultGetObject defaultGetAction h
  ∧ (Forall keepsSubject opts →
     getSubject (NewAuthorizer e opts) = defaultGetSubject)
  ∧ (Forall keepsObject opts →
     getObject (NewAuthorizer e opts) = defaultGetObject)
  ∧ (Forall keepsAction opts →
     getAction (NewAuthorizer e opts) = defaultGetAction)
  ∧ (Forall keepsForbidden opts →
     forbiddenHandler (NewAuthorizer e opts) = defaultForbiddenHandler).
Proof.
  repeat split; try done;
    intros H; unfold NewAuthorizer;
    [ apply (fold_keeps getSubject) | apply (fold_keeps getObject)
    | apply (fold_keeps getAction) | apply (fold_keeps forbiddenHandler) ];
    exact H.
Qed.

(** C10: the options are applied one after the other in the order of the
    argument list, so the last option given for a slot is the one the
    authorizer holds, whatever came before it and whatever options for
    other slots come after it; a denied request is then answered by the
    last forbidden handler given. *)
Theorem last_option_for_a_slot_wins (e : Enforcer)
    (opts rest : list (Option Env Enforcer)) :
  NewAuthorizer e (opts ++ rest)
    = fold_left (λ a opt, opt a) rest (NewAuthorizer e opts)
  ∧ (∀ g, Forall keepsSubject rest →
       getSubject (NewAuthorizer e (opts ++ WithSubjectGetter g :: rest)) = g)
  ∧ (∀ g, Forall keepsObject rest →
       getObject (NewAuthorizer e (opts ++ WithObjectGetter g :: rest)) = g)
  ∧ (∀ g, Forall keepsAction rest →
       getAction (NewAuthorizer e (opts ++ WithActionGetter g :: rest)) = g)
  ∧ (∀ h, Forall keepsForbidden rest →
       forbiddenHandler (NewAuthorizer e (opts ++ WithForbiddenHandler h :: rest)) = h)
  ∧ (∀ h next ctx env, Forall keepsForbidden rest →
       let a := NewAuthorizer e (opts ++ WithForbiddenHandler h :: rest) in
       verdict Enforce a ctx = (false, None) →
       Middleware Enforce a next ctx env = h ctx env).
Proof.
  split; [apply NewAuthorizer_app|].
  assert (Hf : ∀ h, Forall keepsForbidden rest →
    forbiddenHandler (NewAuthorizer e (opts ++ WithForbiddenHandler h :: rest)) = h).
  { intros h H. rewrite NewAuthorizer_app. cbn.
    by rewrite (fold_keeps forbiddenHandler). }
  repeat split.
  - intros g H. rewrite NewAuthorizer_app. cbn. by rewrite (fold_keeps getSubject).
  - intros g H. rewrite NewAuthorizer_app. cbn. by rewrite (fold_keeps getObject).
  - intros g H. rewrite NewAuthorizer_app. cbn. by rewrite (fold_keeps getAction).
  - exact Hf.
  - intros h next ctx env H a Hd. subst a.
    by rewrite (Middleware_denied _ next ctx env Hd), Hf.
Qed.

(** *** Two requests with the same triple *)

(** C7, as amended: two requests from which the getters derive the same
    subject, object and action, served against the same enforcer, end in
    the same terminal action.  When that action is the fixed error
    response, or the default forbidden handler, the status code is the
    same both times, and so is the body when the two bodies were equal
    before.  When it is a configured forbidden handler or [next], each
    outcome is what that handler returns on that call. *)
Theorem same_triple_same_terminal_action a next ctx1 env1 ctx2 env2 :
  getSubject a ctx1 = getSubject a ctx2 →
  getObject a ctx1 = getObject a ctx2 →
  getAction a ctx1 = getAction a ctx2 →
  let s1 := serve Enforce a next ctx1 env1 in
  let s2 := serve Enforce a next ctx2 env2 in
  kind <$> run_trace s1 = kind <$> run_trace s2
  ∧ (kind <$> run_trace s1 = [FailClosed]
       ∨ (kind <$> run_trace s1 = [Reject]
          ∧ forbiddenHandler a = defaultForbiddenHandler) →
     StatusCode (Resp (run_ctx s1)) = StatusCode (Resp (run_ctx s2))
     ∧ (Body (Resp ctx1) = Body (Resp ctx2) →
        Body (Resp (run_ctx s1)) = Body (Resp (run_ctx s2))))
  ∧ (kind <$> run_trace s1 = [Reject] →
     (run_ctx s1, run_env s1) = forbiddenHandler a ctx1 env1
     ∧ (run_ctx s2, run_env s2) = forbiddenHandler a ctx2 env2)
  ∧ (kind <$> run_trace s1 = [Forward] →
     (run_ctx s1, run_env s1) = next ctx1 env1
     ∧ (run_ctx s2, run_env s2) = next ctx2 env2).
Proof.
  intros Hs Ho Ha s1 s2. subst s1 s2.
  destruct (verdict Enforce a ctx1) as [ok [err|]] eqn:H1;
    assert (H2 := H1); unfold verdict in H2; rewrite Hs, Ho, Ha in H2; [|destruct ok].
  - rewrite (serve_error _ next _ env1 _ _ H1), (serve_error _ next _ env2 _ _ H2).
    cbn [run_ctx run_env run_trace]. split_and!; [done | | done | done].
    intros _. split; [done|]. cbn. unfold Body. by intros ->.
  - rewrite (serve_allowed _ next _ env1 H1), (serve_allowed _ next _ env2 H2).
    cbn [run_ctx run_env run_trace]. rewrite !pair_eta.
    split_and!; [done | | done | done].
    by intros [Hk | [Hk _]].
  - rewrite (serve_denied _ next _ env1 H1), (serve_denied _ next _ env2 H2).
    cbn [run_ctx run_env run_trace]. rewrite !pair_eta.
    split_and!; [done | | done | done].
    intros [Hk | [_ ->]]; [done|].
    split; [done|]. cbn. unfold Body. by intros ->.
Qed.

End Properties.

(** ** The test suite, run on the model *)

Module Tests.
Import Example.

Example TestMiddleware_Allow :
  ∃ a, fromFiles [] = (Some a, None)
       ∧ runOnce a "alice" "/" "GET" ∅ = (true, 200, "").
Proof. eexists. split; reflexivity. Qed.

Example TestMiddleware_Deny :
  ∃ a, fromFiles [] = (Some a, None)
       ∧ runOnce a "bob" "/" "GET" ∅ = (false, 403, "Forbidden").
Proof. eexists. split; reflexivity. Qed.

Example TestMiddleware_AnonymousDenied :
  ∃ a, fromFiles [] = (Some a, None)
       ∧ runOnce a "" "/" "GET" ∅ = (false, 403, "Forbidden").
Proof. eexists. split; reflexivity. Qed.

Example TestMiddleware_CustomForbiddenHandler :
  ∃ a, fromFiles [WithForbiddenHandler teapot] = (Some a, None)
       ∧ runOnce a "bob" "/" "GET" ∅ = (false, 418, "nope").
Proof. eexists. split; reflexivity. Qed.

Example TestMiddleware_CustomGetters :
  ∃ a, fromFiles [WithSubjectGetter queryUser; WithObjectGetter constData1;
                  WithActionGetter constGet] = (Some a, None)
       ∧ runOnce a "" "/ignored" "POST" {[ "u" := "alice" ]} = (true, 200, "").
Proof. eexists. split; reflexivity. Qed.

Example TestAuthorizerMiddleware_Helper :
  AuthorizerMiddleware Enforce (Acl policy) [] setAllowed aliceGetsRoot false
    = (aliceGetsRoot, true).
Proof. reflexivity. Qed.

(** The path normalisation on duplicate slashes, encoded bytes and dot
    segments. *)
Example normalizePath_cases :
  Forall (λ c, normalizePath c.1 = c.2)
    [ ("//f%20obar/baz/../zzz", "/f obar/zzz");
      ("/aa//bb", "/aa/bb");
      ("/abc//de///fg////", "/abc/de/fg/");
      ("/xxxx%2fyyy%2f%2F%2F", "/xxxx/yyy/");
      ("/aaa/..", "/");
      ("/xxx/yyy/../", "/xxx/");
      ("/aaa/bbb/ccc/../../ddd", "/aaa/ddd");
      ("/a/b/../c/d/../e/..", "/a/c/");
      ("/aaa/../../../../xxx", "/xxx");
      ("/../../../../../..", "/");
      ("/aaa%2Fbbb%2F%2E.%2Fxxx", "/aaa/xxx");
      ("/aaa////..//b", "/b");
      ("/aaa/..bbb/ccc/..", "/aaa/..bbb/");
      ("/a/./b/././c/./d.html", "/a/b/c/d.html");
      ("./foo/", "/foo/");
      ("./a/./.././../b/./foo.html", "/b/foo.html");
      ("", "/") ].
Proof. repeat constructor. Qed.

(** An engine error, which the test suite does not exercise. *)
Example engine_error_response :
  runOnce faulty "alice" "/" "GET" ∅ = (false, 500, "Authorization error").
Proof. reflexivity. Qed.

End Tests.

(** ** The properties at concrete requests *)

Module Scenario.
Import Example.

Lemma enforce_error_fails_closed_witness :
  verdict Enforce (faulty (Env:=nat)) aliceGetsRoot = (true, Some "invalid matcher expression")
  ∧ Middleware Enforce faulty countCalls aliceGetsRoot 0%nat
      = (errorResponse aliceGetsRoot, 0%nat)
  ∧ StatusCode (Resp (run_ctx (serve Enforce faulty countCalls aliceGetsRoot 0%nat)))
      = 500
  ∧ Body (Resp (run_ctx (serve Enforce faulty countCalls aliceGetsRoot 0%nat)))
      = "Authorization error".
Proof.
  assert (H : verdict Enforce (faulty (Env:=nat)) aliceGetsRoot
              = (true, Some "invalid matcher expression")) by reflexivity.
  split; [exact H|].
  destruct (enforce_error_fails_closed Enforce faulty countCalls aliceGetsRoot 0%nat _ _ H)
    as (_ & _ & _ & HM & _ & HS & _ & _ & _ & HB & _).
  split; [exact HM|]. split; [exact HS|]. apply HB. reflexivity.
Defined.

Lemma allowed_runs_next_once_witness :
  verdict Enforce (plain (Env:=nat)) aliceGetsRoot = (true, None)
  ∧ Middleware Enforce plain countCalls aliceGetsRoot 0%nat = (aliceGetsRoot, 1%nat)
  ∧ occurrences Forward
      (run_trace (serve Enforce plain countCalls aliceGetsRoot 0%nat)) = 1%nat.
Proof.
  assert (H : verdict Enforce (plain (Env:=nat)) aliceGetsRoot = (true, None)) by reflexivity.
  split; [exact H|].
  destruct (allowed_runs_next_once Enforce plain countCalls aliceGetsRoot 0%nat H)
    as (_ & Hn & _ & _ & HM).
  split; [exact HM | exact Hn].
Defined.

(** Scenario D of the specification: the handler writes 418 and [nope]. *)
Lemma denied_runs_forbidden_handler_witness :
  verdict Enforce (withTeapot (Env:=nat)) bobGetsRoot = (false, None)
  ∧ StatusCode (Resp (Middleware Enforce withTeapot countCalls bobGetsRoot 0%nat).1)
      = 418
  ∧ Body (Resp (Middleware Enforce withTeapot countCalls bobGetsRoot 0%nat).1)
      = "nope"
  ∧ (Middleware Enforce withTeapot countCalls bobGetsRoot 0%nat).2 = 0%nat.
Proof.
  assert (H : verdict Enforce (withTeapot (Env:=nat)) bobGetsRoot = (false, None)) by reflexivity.
  split; [exact H|].
  destruct (denied_runs_forbidden_handler Enforce withTeapot countCalls bobGetsRoot 0%nat H)
    as (_ & _ & _ & HM & HS & HB & _).
  rewrite HS, HB, HM. repeat split.
Defined.

Lemma default_subject_header_or_anonymous_witness :
  (fields (Header (Req (newCtx ∅ "/" "GET" ∅))) !! "X-User" = None
   ∧ getSubject (plain (Env:=bool)) (newCtx ∅ "/" "GET" ∅) = "anonymous")
  ∧ getSubject (plain (Env:=bool)) (newCtx {[ "X-User" := "" ]} "/" "GET" ∅)
    = "anonymous"
  ∧ getSubject (plain (Env:=bool)) aliceGetsRoot = "alice".
Proof.
  split; [split; [reflexivity|]|split].
  - destruct (default_subject_header_or_anonymous (Env:=bool) (Acl policy)
                (newCtx ∅ "/" "GET" ∅)) as (Habsent & _).
    apply Habsent. reflexivity.
  - destruct (default_subject_header_or_anonymous (Env:=bool) (Acl policy)
                (newCtx {[ "X-User" := "" ]} "/" "GET" ∅)) as (_ & Hempty & _).
    apply Hempty. reflexivity.
  - destruct (default_subject_header_or_anonymous (Env:=bool) (Acl policy)
                aliceGetsRoot) as (_ & _ & Hvalue & _).
    apply Hvalue; [reflexivity | discriminate].
Defined.

Lemma default_object_is_normalized_path_witness :
  isNormalPath "/data1/" = true
  ∧ getObject (plain (Env:=bool)) (requestCtx ∅ "/data1/" "GET" ∅) = "/data1/"
  ∧ getObject (plain (Env:=bool)) (requestCtx ∅ "/data1/" "GET" ∅)
    ≠ getObject (plain (Env:=bool)) (requestCtx ∅ "/data1" "GET" ∅).
Proof.
  destruct (default_object_is_normalized_path (Env:=bool) (Acl policy)
              ∅ "/data1/" "GET" ∅) as (_ & Hsame & _).
  destruct (default_object_is_normalized_path (Env:=bool) (Acl policy)
              ∅ "/data1" "GET" ∅) as (_ & Hsame' & _).
  split; [reflexivity|]. split; [apply Hsame; reflexivity|].
  unfold plain. rewrite Hsame, Hsame' by reflexivity. discriminate.
Defined.

(** C6 as stated fails: a request for [/data1//] reaches the engine with
    the object [/data1/], one for [/x/../data1] or [/data%31] with the
    object [/data1]. *)
Lemma received_path_is_normalized :
  getObject (plain (Env:=bool)) (requestCtx ∅ "/data1//" "GET" ∅) = "/data1/"
  ∧ getObject (plain (Env:=bool)) (requestCtx ∅ "/data1//" "GET" ∅) ≠ "/data1//"
  ∧ getObject (plain (Env:=bool)) (requestCtx ∅ "/x/../data1" "GET" ∅) = "/data1"
  ∧ getObject (plain (Env:=bool)) (requestCtx ∅ "/data%31" "GET" ∅) = "/data1".
Proof. split_and!; (reflexivity || discriminate). Qed.

Lemma from_files_propagates_error_witness :
  (NewEnforcer "authz_model.conf" "missing.csv").2
    = Some "open: no such file or directory"
  ∧ NewAuthorizerFromFiles (Env:=bool) NewEnforcer "authz_model.conf" "missing.csv" []
    = (None, Some "open: no such file or directory")
  ∧ (NewEnforcer "authz_model.conf" "authz_policy.csv").2 = None
  ∧ fromFiles [] = (Some plain, None).
Proof.
  destruct (from_files_propagates_error (Env:=bool) NewEnforcer
              "authz_model.conf" "missing.csv" []) as (Herr & _).
  destruct (from_files_propagates_error (Env:=bool) NewEnforcer
              "authz_model.conf" "authz_policy.csv" []) as (_ & Hok).
  split; [reflexivity|]. split; [apply Herr; reflexivity|].
  split; [reflexivity|]. apply Hok. reflexivity.
Defined.

Lemma option_overrides_only_its_slot_witness :
  (Forall keepsSubject
     [WithObjectGetter constData1; WithActionGetter constGet : Option bool Engine]
   ∧ getSubject (NewAuthorizer (Env:=bool) (Acl policy)
                   [WithObjectGetter constData1; WithActionGetter constGet])
     = defaultGetSubject)
  ∧ (Forall keepsForbidden
       [WithObjectGetter constData1; WithActionGetter constGet : Option bool Engine]
     ∧ forbiddenHandler (NewAuthorizer (Env:=bool) (Acl policy)
                           [WithObjectGetter constData1; WithActionGetter constGet])
       = defaultForbiddenHandler)
  ∧ (Forall keepsObject [WithSubjectGetter queryUser : Option bool Engine]
     ∧ getObject (NewAuthorizer (Env:=bool) (Acl policy) [WithSubjectGetter queryUser])
       = defaultGetObject)
  ∧ (Forall keepsAction [WithForbiddenHandler teapot : Option bool Engine]
     ∧ getAction (NewAuthorizer (Env:=bool) (Acl policy) [WithForbiddenHandler teapot])
       = defaultGetAction).
Proof.
  assert (Hs : Forall keepsSubject
            [WithObjectGetter constData1; WithActionGetter constGet : Option bool Engine])
    by (repeat constructor).
  assert (Hf : Forall keepsForbidden
            [WithObjectGetter constData1; WithActionGetter constGet : Option bool Engine])
    by (repeat constructor).
  assert (Ho : Forall keepsObject [WithSubjectGetter queryUser : Option bool Engine])
    by (repeat constructor).
  assert (Ha : Forall keepsAction [WithForbiddenHandler teapot : Option bool Engine])
    by (repeat constructor).
  destruct (option_overrides_only_its_slot (Env:=bool) (Acl policy) queryUser
              constData1 constGet teapot
              [WithObjectGetter constData1; WithActionGetter constGet])
    as (_ & _ & _ & _ & _ & _ & _ & _ & Ks & _ & _ & Kf).
  destruct (option_overrides_only_its_slot (Env:=bool) (Acl policy) queryUser
              constData1 constGet teapot [WithSubjectGetter queryUser])
    as (_ & _ & _ & _ & _ & _ & _ & _ & _ & Ko & _).
  destruct (option_overrides_only_its_slot (Env:=bool) (Acl policy) queryUser
              constData1 constGet teapot [WithForbiddenHandler teapot])
    as (_ & _ & _ & _ & _ & _ & _ & _ & _ & _ & Ka & _).
  split; [exact (conj Hs (Ks Hs))|]. split; [exact (conj Hf (Kf Hf))|].
  split; [exact (conj Ho (Ko Ho)) | exact (conj Ha (Ka Ha))].
Defined.

Lemma last_option_for_a_slot_wins_witness :
  (Forall keepsForbidden [WithSubjectGetter defaultGetSubject : Option bool Engine]
   ∧ verdict Enforce
       (NewAuthorizer (Env:=bool) (Acl policy)
          ([WithForbiddenHandler skip]
           ++ WithForbiddenHandler teapot :: [WithSubjectGetter defaultGetSubject]))
       bobGetsRoot = (false, None)
   ∧ Middleware Enforce
       (NewAuthorizer (Acl policy)
          ([WithForbiddenHandler skip]
           ++ WithForbiddenHandler teapot :: [WithSubjectGetter defaultGetSubject]))
       setAllowed bobGetsRoot false = teapot bobGetsRoot false)
  ∧ (Forall keepsSubject [WithActionGetter constGet : Option bool Engine]
     ∧ getSubject (NewAuthorizer (Env:=bool) (Acl policy)
                     ([WithSubjectGetter constData1]
                      ++ WithSubjectGetter queryUser :: [WithActionGetter constGet]))
       = queryUser)
  ∧ (Forall keepsObject [WithActionGetter constGet : Option bool Engine]
     ∧ getObject (NewAuthorizer (Env:=bool) (Acl policy)
                    ([WithSubjectGetter constData1]
                     ++ WithObjectGetter constData1 :: [WithActionGetter constGet]))
       = constData1)
  ∧ (Forall keepsAction [WithSubjectGetter queryUser : Option bool Engine]
     ∧ getAction (NewAuthorizer (Env:=bool) (Acl policy)
                    ([WithActionGetter queryUser]
                     ++ WithActionGetter constGet :: [WithSubjectGetter queryUser]))
       = constGet).
Proof.
  assert (Hf : Forall keepsForbidden
            [WithSubjectGetter defaultGetSubject : Option bool Engine])
    by (repeat constructor).
  assert (Hs : Forall keepsSubject [WithActionGetter constGet : Option bool Engine])
    by (repeat constructor).
  assert (Ho : Forall keepsObject [WithActionGetter constGet : Option bool Engine])
    by (repeat constructor).
  assert (Ha : Forall keepsAction [WithSubjectGetter queryUser : Option bool Engine])
    by (repeat constructor).
  destruct (last_option_for_a_slot_wins (Env:=bool) Enforce (Acl policy)
              [WithForbiddenHandler skip] [WithSubjectGetter defaultGetSubject])
    as (_ & _ & _ & _ & _ & Lm).
  destruct (last_option_for_a_slot_wins (Env:=bool) Enforce (Acl policy)
              [WithSubjectGetter constData1] [WithActionGetter constGet])
    as (_ & Ls & Lo & _).
  destruct (last_option_for_a_slot_wins (Env:=bool) Enforce (Acl policy)
              [WithActionGetter queryUser] [WithSubjectGetter queryUser])
    as (_ & _ & _ & La & _).
  split.
  { split; [exact Hf|]. split; [reflexivity|].
    apply (Lm teapot setAllowed bobGetsRoot false Hf). reflexivity. }
  split; [exact (conj Hs (Ls queryUser Hs))|].
  split; [exact (conj Ho (Lo constData1 Ho)) | exact (conj Ha (La constGet Ha))].
Defined.

Lemma same_triple_same_terminal_action_witness :
  (getSubject (plain (Env:=bool)) bobGetsRoot
     = getSubject (plain (Env:=bool)) bobGetsRootPage2
   ∧ getObject (plain (Env:=bool)) bobGetsRoot
     = getObject (plain (Env:=bool)) bobGetsRootPage2
   ∧ getAction (plain (Env:=bool)) bobGetsRoot
     = getAction (plain (Env:=bool)) bobGetsRootPage2)
  ∧ sameOutcome (serve Enforce plain setAllowed bobGetsRoot false)
                (serve Enforce plain setAllowed bobGetsRootPage2 false).
Proof.
  split; [by split_and!|].
  destruct (same_triple_same_terminal_action Enforce plain setAllowed
              bobGetsRoot false bobGetsRootPage2 false eq_refl eq_refl eq_refl)
    as (Hk & Hfixed & _).
  split; [exact Hk|].
  destruct Hfixed as [Hst Hbody].
  - right. split; reflexivity.
  - split; [exact Hst | apply Hbody; reflexivity].
Defined.

(** C7 as stated fails: the same request of bob served twice by a
    middleware whose forbidden handler is [throttle], against the same
    policy, is rejected both times, with 403 and [Forbidden] the first
    time and 429 and [Too Many Requests] the second. *)
Lemma repeated_request_outcome_differs :
  kind <$> run_trace twoDenials.1 = [Reject]
  ∧ kind <$> run_trace twoDenials.2 = [Reject]
  ∧ StatusCode (Resp (run_ctx twoDenials.1)) = 403
  ∧ Body (Resp (run_ctx twoDenials.1)) = "Forbidden"
  ∧ StatusCode (Resp (run_ctx twoDenials.2)) = 429
  ∧ Body (Resp (run_ctx twoDenials.2)) = "Too Many Requests"
  ∧ ¬ sameOutcome twoDenials.1 twoDenials.2.
Proof.
  split_and!; try reflexivity.
  intros (_ & Hst & _). vm_compute in Hst. discriminate Hst.
Qed.

End Scenario.

(** ** Further properties of authz.go *)

Section Composition.

Context {Env Enforcer error : Type}.
Variable Enforce : Enforcer → string → string → string → bool * option error.
Variable NewEnforcer : string → string → Enforcer * option error.

Implicit Types (a : Authorizer Env Enforcer) (next : RequestHandler Env).
Implicit Types (ctx : RequestCtx) (env : Env).
Implicit Types (opts : list (Option Env Enforcer)).

Lemma Middleware_allowed a next ctx env :
  verdict Enforce a ctx = (true, None) →
  Middleware Enforce a next ctx env = next ctx env.
Proof.
  intros H. rewrite Middleware_serve, (serve_allowed _ _ _ _ _ H).
  cbn [run_ctx run_env]. apply pair_eta.
Qed.

Lemma Middleware_error a next ctx env ok err :
  verdict Enforce a ctx = (ok, Some err) →
  Middleware Enforce a next ctx env = (errorResponse ctx, env).
Proof.
  intros H. by rewrite Middleware_serve, (serve_error _ _ _ _ _ _ _ H).
Qed.

Lemma allowed_or_not (v : bool * option error) :
  v = (true, None) ∨ v ≠ (true, None).
Proof. destruct v as [[|] [err|]]; auto. Qed.

(** Unless the engine allows, [next] has no part in the outcome. *)
Lemma Middleware_blocks a next next' ctx env :
  verdict Enforce a ctx ≠ (true, None) →
  Middleware Enforce a next' ctx env = Middleware Enforce a next ctx env.
Proof.
  intros H. destruct (verdict Enforce a ctx) as [ok [err|]] eqn:Hv.
  - by rewrite !(Middleware_error _ _ _ _ _ _ Hv).
  - destruct ok; [done|]. by rewrite !(Middleware_denied _ _ _ _ _ Hv).
Qed.

Lemma serve_kind a next ctx env :
  kind <$> run_trace (serve Enforce a next ctx env)
    = [terminalOf (verdict Enforce a ctx)].
Proof.
  destruct (verdict Enforce a ctx) as [ok [err|]] eqn:Hv.
  - by rewrite (serve_error _ _ _ _ _ _ _ Hv).
  - destruct ok.
    + by rewrite (serve_allowed _ _ _ _ _ Hv).
    + by rewrite (serve_denied _ _ _ _ _ Hv).
Qed.

Lemma fold_left_options_perm opts opts' :
  opts ≡ₚ opts' →
  (∀ o1 o2, o1 ∈ opts → o2 ∈ opts → ∀ a, o1 (o2 a) = o2 (o1 a)) →
  ∀ a, fold_left (λ a opt, opt a) opts a = fold_left (λ a opt, opt a) opts' a.
Proof.
  induction 1 as [|x l l' Hp IH|x y l|l l' l'' Hp1 IH1 Hp2 IH2]; intros Hc a.
  - reflexivity.
  - cbn. apply IH. intros o1 o2 H1 H2. apply Hc; set_solver.
  - cbn. f_equal. apply Hc; set_solver.
  - rewrite IH1 by done. apply IH2.
    intros o1 o2 H1 H2. apply Hc; by rewrite Hp1.
Qed.

(** X1: when no option replaced the forbidden handler, a request the
    engine denies is answered with status 403, content type
    [text/plain; charset=utf-8] and [Forbidden] appended to the body,
    which is therefore not empty; the request and the captured state are
    left as they were, and [next] is not called. *)
Theorem denied_by_default_is_403 (e : Enforcer) opts next ctx env :
  Forall keepsForbidden opts →
  verdict Enforce (NewAuthorizer e opts) ctx = (false, None) →
  let out := Middleware Enforce (NewAuthorizer e opts) next ctx env in
  out.2 = env
  ∧ Req out.1 = Req ctx
  ∧ StatusCode (Resp out.1) = StatusForbidden
  ∧ 400 ≤ StatusCode (Resp out.1) < 500
  ∧ contentType (Resp out.1) = "text/plain; charset=utf-8"
  ∧ Body (Resp out.1) = Body (Resp ctx) +:+ "Forbidden"
  ∧ Body (Resp out.1) ≠ ""
  ∧ ∀ next', Middleware Enforce (NewAuthorizer e opts) next' ctx env = out.
Proof.
  intros Hk Hv out.
  assert (Hout : ∀ n, Middleware Enforce (NewAuthorizer e opts) n ctx env
                      = defaultForbiddenHandler ctx env).
  { intros n. rewrite (Middleware_denied _ _ _ _ _ Hv).
    unfold NewAuthorizer. by rewrite (fold_keeps forbiddenHandler). }
  subst out. rewrite !Hout. cbn. split_and!; try done.
  by apply append_nonempty.
Qed.

(** X2: with the default getters, a request without [X-User] header, one
    with an empty [X-User] and one with [X-User: anonymous] are the same
    request to the engine, and end in the same terminal action. *)
Theorem no_user_is_anonymous a next hdrs p meth args env :
  getSubject a = defaultGetSubject →
  getObject a = defaultGetObject →
  getAction a = defaultGetAction →
  let absent := newCtx (delete "X-User" hdrs) p meth args in
  let empty := newCtx (<["X-User" := ""]> hdrs) p meth args in
  let named := newCtx (<["X-User" := "anonymous"]> hdrs) p meth args in
  verdict Enforce a absent = Enforce (enforcer a) "anonymous" p meth
  ∧ verdict Enforce a empty = verdict Enforce a absent
  ∧ verdict Enforce a named = verdict Enforce a absent
  ∧ kind <$> run_trace (serve Enforce a next named env)
    = kind <$> run_trace (serve Enforce a next absent env)
  ∧ kind <$> run_trace (serve Enforce a next empty env)
    = kind <$> run_trace (serve Enforce a next absent env).
Proof.
  intros Hs Ho Ha absent empty named.
  assert (H1 : verdict Enforce a absent = Enforce (enforcer a) "anonymous" p meth).
  { unfold verdict. rewrite Hs, Ho, Ha. subst absent.
    unfold defaultGetSubject, Peek. cbn. by rewrite lookup_delete_eq. }
  assert (H2 : verdict Enforce a empty = Enforce (enforcer a) "anonymous" p meth).
  { unfold verdict. rewrite Hs, Ho, Ha. subst empty.
    unfold defaultGetSubject, Peek. cbn. by rewrite lookup_insert_eq. }
  assert (H3 : verdict Enforce a named = Enforce (enforcer a) "anonymous" p meth).
  { unfold verdict. rewrite Hs, Ho, Ha. subst named.
    unfold defaultGetSubject, Peek. cbn. by rewrite lookup_insert_eq. }
  rewrite !serve_kind, H1, H2, H3. done.
Qed.

(** X3: the middleware [AuthorizerMiddleware] builds from the enforcer of
    an authorizer loaded from files, with the options that authorizer was
    given, is the middleware of that authorizer, as long as the options
    leave the enforcer alone (the four [With...] options do). *)
Theorem helper_agrees_with_from_files (modelPath policyPath : string) opts a :
  NewAuthorizerFromFiles NewEnforcer modelPath policyPath opts = (Some a, None) →
  Forall keepsEnforcer opts →
  enforcer a = (NewEnforcer modelPath policyPath).1
  ∧ AuthorizerMiddleware Enforce (enforcer a) opts = Middleware Enforce a.
Proof.
  unfold NewAuthorizerFromFiles, AuthorizerMiddleware.
  destruct (NewEnforcer modelPath policyPath) as [e [err|]]; [done|].
  intros [= <-] Hk.
  assert (He : enforcer (NewAuthorizer (Env:=Env) e opts) = e).
  { unfold NewAuthorizer. by rewrite (fold_keeps enforcer). }
  by rewrite He.
Qed.

(** X4: options that target different slots commute, so an option list
    in which every two options commute can be given in any order; the
    order matters only between options for the same slot. *)
Theorem option_order_is_irrelevant_across_slots (e : Enforcer) opts opts'
    (gs go ga : RequestCtx → string) (h : RequestHandler Env) a :
  WithSubjectGetter gs (WithObjectGetter go a)
    = WithObjectGetter go (WithSubjectGetter gs a)
  ∧ WithSubjectGetter gs (WithActionGetter ga a)
    = WithActionGetter ga (WithSubjectGetter gs a)
  ∧ WithSubjectGetter gs (WithForbiddenHandler h a)
    = WithForbiddenHandler h (WithSubjectGetter gs a)
  ∧ WithObjectGetter go (WithActionGetter ga a)
    = WithActionGetter ga (WithObjectGetter go a)
  ∧ WithObjectGetter go (WithForbiddenHandler h a)
    = WithForbiddenHandler h (WithObjectGetter go a)
  ∧ WithActionGetter ga (WithForbiddenHandler h a)
    = WithForbiddenHandler h (WithActionGetter ga a)
  ∧ (opts ≡ₚ opts' →
     (∀ o1 o2, o1 ∈ opts → o2 ∈ opts → ∀ a, o1 (o2 a) = o2 (o1 a)) →
     NewAuthorizer e opts = NewAuthorizer e opts').
Proof.
  split_and!; try reflexivity.
  intros Hp Hc. unfold NewAuthorizer. by apply fold_left_options_perm.
Qed.

(** X5: two middlewares, one around the other.  When the outer engine
    allows, the request is passed to the inner middleware as it came;
    [next] gets it when both allow; when either does not allow, [next]
    has no part in the outcome. *)
Theorem stacked_middlewares a1 a2 next ctx env :
  (verdict Enforce a1 ctx = (true, None) →
   Middleware Enforce a1 (Middleware Enforce a2 next) ctx env
     = Middleware Enforce a2 next ctx env)
  ∧ (verdict Enforce a1 ctx = (true, None) →
     verdict Enforce a2 ctx = (true, None) →
     Middleware Enforce a1 (Middleware Enforce a2 next) ctx env = next ctx env)
  ∧ (verdict Enforce a1 ctx ≠ (true, None) ∨ verdict Enforce a2 ctx ≠ (true, None) →
     ∀ next', Middleware Enforce a1 (Middleware Enforce a2 next') ctx env
              = Middleware Enforce a1 (Middleware Enforce a2 next) ctx env)
  ∧ (verdict Enforce a1 ctx = (false, None) →
     Middleware Enforce a1 (Middleware Enforce a2 next) ctx env
       = forbiddenHandler a1 ctx env).
Proof.
  split_and!.
  - intros H1. by rewrite (Middleware_allowed _ _ _ _ H1).
  - intros H1 H2. by rewrite (Middleware_allowed _ _ _ _ H1), (Middleware_allowed _ _ _ _ H2).
  - intros [H1 | H2] next'.
    + by apply Middleware_blocks.
    + destruct (allowed_or_not (verdict Enforce a1 ctx)) as [H1 | H1].
      * rewrite !(Middleware_allowed _ _ _ _ H1). by apply Middleware_blocks.
      * by apply Middleware_blocks.
  - intros H1. by rewrite (Middleware_denied _ _ _ _ _ H1).
Qed.

(** X6: wrapping a handler twice in the middleware of one authorizer
    gives the same outcome as wrapping it once. *)
Theorem wrapping_twice_is_wrapping_once a next ctx env :
  Middleware Enforce a (Middleware Enforce a next) ctx env
    = Middleware Enforce a next ctx env.
Proof.
  destruct (allowed_or_not (verdict Enforce a ctx)) as [H | H].
  - by rewrite (Middleware_allowed _ _ _ _ H).
  - by apply Middleware_blocks.
Qed.

(** X12: when the three getters are overridden, the engine is asked about
    what they return and about nothing else of the request; with getters
    that return constants, every request ends in the same terminal
    action. *)
Theorem getters_decide_the_triple (e : Enforcer) opts
    (gs go ga : RequestCtx → string) ctx :
  Forall keepsEnforcer opts →
  let a := NewAuthorizer e
             (opts ++ [WithSubjectGetter gs; WithObjectGetter go; WithActionGetter ga]) in
  verdict Enforce a ctx = Enforce e (gs ctx) (go ctx) (ga ctx)
  ∧ ((∀ c c', gs c = gs c' ∧ go c = go c' ∧ ga c = ga c') →
     ∀ ctx' next env env',
       kind <$> run_trace (serve Enforce a next ctx' env')
       = kind <$> run_trace (serve Enforce a next ctx env)).
Proof.
  intros Hk a.
  assert (Hv : ∀ c, verdict Enforce a c = Enforce e (gs c) (go c) (ga c)).
  { intros c. subst a. rewrite NewAuthorizer_app. unfold verdict. cbn.
    unfold NewAuthorizer. by rewrite (fold_keeps enforcer). }
  split; [apply Hv|].
  intros Hconst ctx' next env env'. rewrite !serve_kind, !Hv.
  by destruct (Hconst ctx' ctx) as (-> & -> & ->).
Qed.

End Composition.

(** ** Properties of example/main.go *)

Section ExampleProgram.

Context {Env Enforcer error : Type}.
Variable Enforce : Enforcer → string → string → string → bool * option error.
Variable requestURI : string → string * gmap string string.
Variable requestMethod : string → string.

Implicit Types (a : Authorizer Env Enforcer) (ctx : RequestCtx) (env : Env).
Implicit Types (tc : main.testCase).

Local Abbreviation testCtx := (main.testCtx requestURI requestMethod).
Local Abbreviation testPermission :=
  (main.testPermission Enforce requestURI requestMethod).
Local Abbreviation checkCase := (main.checkCase Enforce requestURI requestMethod).
Local Abbreviation runPermissionTests :=
  (main.runPermissionTests Enforce requestURI requestMethod).
Local Abbreviation agrees := (main.agrees Enforce requestURI requestMethod).

(** *** The handler *)

Lemma handler_frame ctx env :
  (main.handler ctx env).2 = env
  ∧ Req (main.handler ctx env).1 = Req ctx
  ∧ contentType (Resp (main.handler ctx env).1) = contentType (Resp ctx).
Proof. unfold main.handler. by repeat case_decide. Qed.

Lemma handler_status ctx env :
  statusCode (Resp (main.handler ctx env).1)
    = if decide (Path ctx ∈ main.routes) then statusCode (Resp ctx)
      else StatusNotFound.
Proof.
  unfold main.handler, main.routes.
  destruct (decide (Path ctx ∈ _)) as [Hin | Hout].
  - repeat case_decide; try done.
    rewrite !elem_of_cons, elem_of_nil in Hin.
    by destruct Hin as [?|[?|[?|[?|[]]]]].
  - repeat case_decide; try done; destruct Hout;
      rewrite !elem_of_cons; auto 6.
Qed.

Lemma handler_writes ctx env :
  ∃ text, text ≠ "" ∧
    body (Resp (main.handler ctx env).1) = body (Resp ctx) +:+ text.
Proof.
  unfold main.handler.
  repeat case_decide; cbn; eexists; (split; [|reflexivity]); discriminate.
Qed.

(** Closes the side conditions of the case analyses below. *)
Local Ltac settle :=
  first
    [ done
    | by apply append_nonempty
    | by (split; intros ?;
          repeat (destruct_and? ||
                  match goal with H : ∃ _, _ |- _ => destruct H end);
          simplify_eq; try contradiction; eauto) ].

Lemma StatusCode_unset_or (r : Response) :
  StatusCode r = if decide (statusCode r = 0) then 200 else statusCode r.
Proof. reflexivity. Qed.

(** X7: the handler of the example leaves the request, the content type
    and the captured state alone and always appends a non-empty text to
    the body; it keeps the status code on its four routes and sets 404 on
    every other path, echoing the path; and on each of the four routes
    the text is the greeting of that route with the subject the default
    getter derives ([anonymous] without [X-User]). *)
Theorem handler_serves_its_routes ctx env :
  let out := main.handler ctx env in
  out.2 = env
  ∧ Req out.1 = Req ctx
  ∧ contentType (Resp out.1) = contentType (Resp ctx)
  ∧ (∃ text, text ≠ "" ∧ Body (Resp out.1) = Body (Resp ctx) +:+ text)
  ∧ (Path ctx ∈ main.routes → statusCode (Resp out.1) = statusCode (Resp ctx))
  ∧ (Path ctx ∉ main.routes →
     statusCode (Resp out.1) = StatusNotFound
     ∧ Body (Resp out.1) = Body (Resp ctx) +:+ "Page not found: " +:+ Path ctx)
  ∧ (Path ctx = "/" →
     Body (Resp out.1)
       = Body (Resp ctx) +:+ "Welcome to the home page! User: "
         +:+ defaultGetSubject ctx)
  ∧ (Path ctx = "/data1" →
     Body (Resp out.1)
       = Body (Resp ctx) +:+ "Data1 page - User: " +:+ defaultGetSubject ctx)
  ∧ (Path ctx = "/data2" →
     Body (Resp out.1)
       = Body (Resp ctx) +:+ "Data2 page - User: " +:+ defaultGetSubject ctx
         +:+ ", Method: " +:+ Method ctx)
  ∧ (Path ctx = "/api/users" →
     Body (Resp out.1)
       = Body (Resp ctx) +:+ "Users API - User: " +:+ defaultGetSubject ctx).
Proof.
  intros out. subst out.
  destruct (handler_frame ctx env) as (He & Hr & Hc).
  split_and!; try done.
  - apply handler_writes.
  - intros Hin. rewrite handler_status. by case_decide.
  - intros Hout. split.
    + rewrite handler_status. by case_decide.
    + unfold main.handler, main.routes in *.
      repeat case_decide; try done; destruct Hout; rewrite !elem_of_cons; auto 6.
  - intros Hp. unfold main.handler, defaultGetSubject. rewrite Hp. by case_decide.
  - intros Hp. unfold main.handler, defaultGetSubject. rewrite Hp.
    repeat case_decide; done.
  - intros Hp. unfold main.handler, defaultGetSubject. rewrite Hp.
    repeat case_decide; done.
  - intros Hp. unfold main.handler, defaultGetSubject. rewrite Hp.
    repeat case_decide; done.
Qed.

(** X8: the handler of the example behind the middleware, with the
    default forbidden handler, on a context whose status code is not set
    yet.  The response body is never empty, and the status code tells the
    engine's answer: 200 exactly when the engine allowed and the path is a
    route, 404 exactly when it allowed and the path is not, 403 exactly
    when it denied, 500 exactly when it failed.  So a client that is not
    allowed cannot tell routes from other paths. *)
Theorem protected_status_tells_the_verdict a ctx env :
  forbiddenHandler a = defaultForbiddenHandler →
  statusCode (Resp ctx) = 0 →
  let out := main.protected Enforce a ctx env in
  out.2 = env
  ∧ Req out.1 = Req ctx
  ∧ Body (Resp out.1) ≠ ""
  ∧ (StatusCode (Resp out.1) = 200
     ↔ verdict Enforce a ctx = (true, None) ∧ Path ctx ∈ main.routes)
  ∧ (StatusCode (Resp out.1) = 404
     ↔ verdict Enforce a ctx = (true, None) ∧ Path ctx ∉ main.routes)
  ∧ (StatusCode (Resp out.1) = 403 ↔ verdict Enforce a ctx = (false, None))
  ∧ (StatusCode (Resp out.1) = 500
     ↔ ∃ ok err, verdict Enforce a ctx = (ok, Some err)).
Proof.
  intros Hf H0 out. subst out. unfold main.protected.
  destruct (verdict Enforce a ctx) as [ok [err|]] eqn:Hv; [|destruct ok].
  - rewrite (Middleware_error _ _ _ _ _ _ _ Hv). cbn.
    split_and!; settle.
  - rewrite (Middleware_allowed _ _ _ _ _ Hv).
    destruct (handler_frame ctx env) as (He & Hr & _).
    destruct (handler_writes ctx env) as (text & Ht & Hb).
    rewrite StatusCode_unset_or, handler_status, H0. unfold Body. rewrite Hb.
    split_and!; [done | done | by apply append_nonempty | ..];
      repeat case_decide; cbn; settle.
  - rewrite (Middleware_denied _ _ _ _ _ Hv), Hf. cbn.
    split_and!; settle.
Qed.

(** *** The self-test *)

Lemma testPermission_cases a env tc :
  testPermission a env tc
  = (allows (verdict Enforce a (testCtx tc)),
     match terminalOf (verdict Enforce a (testCtx tc)) with
     | Reject => (forbiddenHandler a (testCtx tc) env).2
     | _ => env
     end).
Proof.
  unfold main.testPermission.
  destruct (verdict Enforce a (testCtx tc)) as [ok [err|]] eqn:Hv; [|destruct ok].
  - by rewrite (Middleware_error Enforce (main.inScope a) _ _ _ _ _ Hv).
  - by rewrite (Middleware_allowed Enforce (main.inScope a) _ _ _ Hv).
  - rewrite (Middleware_denied Enforce (main.inScope a) _ _ _ Hv). cbn.
    by destruct (forbiddenHandler a (testCtx tc) env).
Qed.

(** X9: [testPermission] returns true exactly when the engine answers
    [(true, nil)] for the triple of the test request: a denial and an
    engine error both give false.  The handlers of the authorizer cannot
    change that, and only a denial runs one of them. *)
Theorem testPermission_reports_the_verdict a env tc :
  ((testPermission a env tc).1 = true
   ↔ verdict Enforce a (testCtx tc) = (true, None))
  ∧ (testPermission a env tc).1 = allows (verdict Enforce a (testCtx tc))
  ∧ (verdict Enforce a (testCtx tc) ≠ (false, None) →
     (testPermission a env tc).2 = env)
  ∧ (verdict Enforce a (testCtx tc) = (false, None) →
     (testPermission a env tc).2 = (forbiddenHandler a (testCtx tc) env).2).
Proof.
  rewrite testPermission_cases.
  destruct (verdict Enforce a (testCtx tc)) as [[|] [err|]]; cbn;
    split_and!; try done; split; done.
Qed.

(** One turn of the loop, field by field. *)
Lemma checkCase_fields a (st : main.loopState) tc :
  main.index (checkCase a st tc) = main.index st + 1
  ∧ main.passed (checkCase a st tc)
    = main.passed st + (if decide (agrees a tc) then 1 else 0)
  ∧ main.logged (checkCase a st tc)
    = (main.logged st
       ++ [main.reportLine (main.index st + 1) tc
             (allows (verdict Enforce a (testCtx tc)))])%list.
Proof.
  unfold main.checkCase, main.reportLine, main.agrees.
  rewrite testPermission_cases.
  repeat case_decide; cbn; split_and!; (done || lia).
Qed.

(** The loop of [runPermissionTests] from any state. *)
Lemma loop_report a (cases : list main.testCase) (st : main.loopState) :
  let st' := fold_left (checkCase a) cases st in
  let result tc := allows (verdict Enforce a (testCtx tc)) in
  main.index st' = main.index st + Z.of_nat (length cases)
  ∧ main.passed st'
    = main.passed st + Z.of_nat (length (filter (agrees a) cases))
  ∧ main.logged st'
    = (main.logged st
       ++ imap (λ i tc, main.reportLine (main.index st + Z.of_nat i + 1) tc
                          (result tc)) cases)%list.
Proof.
  revert st. induction cases as [|tc cases IH]; intros st; cbn zeta.
  - cbn. split_and!; [lia | lia | by rewrite app_nil_r].
  - cbn [fold_left]. destruct (IH (checkCase a st tc)) as (Hi & Hp & Hl).
    destruct (checkCase_fields a st tc) as (Ci & Cp & Cl).
    rewrite Hi, Hp, Hl, Ci, Cp, Cl. clear IH Hi Hp Hl Ci Cp Cl.
    rewrite filter_cons. cbn [imap length].
    split_and!.
    + lia.
    + case_decide; cbn [length]; lia.
    + rewrite <- app_assoc. cbn [app]. do 2 f_equal.
      * f_equal. lia.
      * apply imap_ext. intros i x _. cbn. f_equal. lia.
Qed.

Lemma filter_all_length {A} (P : A → Prop) `{∀ x, Decision (P x)} (l : list A) :
  length (filter P l) = length l ↔ Forall P l.
Proof.
  induction l as [|x l IH]; [done|].
  rewrite filter_cons, Forall_cons. pose proof (length_filter P l).
  case_decide; cbn; [rewrite <- IH|]; split; try lia; try tauto.
  intros ?. split; [done | lia].
Qed.

(** X10: the log of [runPermissionTests].  After the title line comes one
    line per test case, in the order of the table and numbered from 1,
    that says pass exactly when [testPermission] agrees with the expected
    value; the last line reports the number of passes out of 12.  The
    count is between 0 and 12, and is 12 exactly when the engine's answer
    is the expected one on every case.  The log does not depend on the
    forbidden handler of the authorizer nor on the state of its
    handlers. *)
Theorem runPermissionTests_report a env :
  let result tc := allows (verdict Enforce a (testCtx tc)) in
  let count := Z.of_nat (length (filter (agrees a) main.testCases)) in
  runPermissionTests a env
    = ([main.LogRunning]
       ++ imap (λ i tc, main.reportLine (Z.of_nat i + 1) tc (result tc))
            main.testCases
       ++ [main.LogResults count 12])%list
  ∧ (0 ≤ count ≤ 12)%Z
  ∧ (count = 12 ↔ Forall (agrees a) main.testCases).
Proof.
  intros result count. split; [|split].
  - unfold main.runPermissionTests.
    destruct (loop_report a main.testCases
                (main.mkLoopState 0 0 [main.LogRunning] env)) as (_ & Hp & Hl).
    cbn zeta in Hp, Hl. rewrite Hp, Hl. cbn [main.passed main.index main.logged].
    by rewrite <- app_assoc.
  - subst count. pose proof (length_filter (agrees a) main.testCases) as H.
    change (length main.testCases) with 12%nat in H. lia.
  - subst count.
    pose proof (filter_all_length (agrees a) main.testCases) as H.
    change (length main.testCases) with 12%nat in H.
    split; intros ?; [apply H | apply H in H0]; lia.
Qed.

(** With the default getters and an engine that matches triples exactly,
    the answer for a test case is membership of its triple in the
    policy. *)
Lemma default_answer a tc (rules : list (string * string * string)) :
  getSubject a = defaultGetSubject →
  getObject a = defaultGetObject →
  getAction a = defaultGetAction →
  (∀ sub obj act,
     Enforce (enforcer a) sub obj act = (bool_decide ((sub, obj, act) ∈ rules), None)) →
  (requestURI (main.path tc)).1 = main.path tc →
  requestMethod (main.method tc) = main.method tc →
  allows (verdict Enforce a (testCtx tc))
    = bool_decide ((if decide (main.user tc = "") then "anonymous" else main.user tc,
                    main.path tc, main.method tc) ∈ rules).
Proof.
  intros Hs Ho Ha Hacl Hu Hm. unfold verdict. rewrite Hs, Ho, Ha, Hacl.
  unfold main.testCtx. destruct (requestURI (main.path tc)) as [p args].
  cbn in Hu. subst p. rewrite Hm.
  unfold defaultGetSubject, defaultGetObject, defaultGetAction, Peek. cbn.
  destruct (decide (main.user tc = "")) as [Heq | Hne].
  - by rewrite lookup_empty.
  - rewrite lookup_singleton_eq. cbn. by rewrite decide_False.
Qed.

(** X11: with the default getters, an engine that allows exactly the
    triples of the policy of the README (the matcher of its model
    compares subject, object and action for equality), and a transport
    that returns the paths and methods of the table as they were set,
    every case of the table has the expected result: the self-test logs
    twelve passes and [12/12]. *)
Theorem self_test_passes_on_README_policy a env :
  getSubject a = defaultGetSubject →
  getObject a = defaultGetObject →
  getAction a = defaultGetAction →
  (∀ sub obj act,
     Enforce (enforcer a) sub obj act
       = (bool_decide ((sub, obj, act) ∈ Example.policy), None)) →
  (∀ tc, tc ∈ main.testCases → (requestURI (main.path tc)).1 = main.path tc) →
  (∀ tc, tc ∈ main.testCases → requestMethod (main.method tc) = main.method tc) →
  Forall (agrees a) main.testCases
  ∧ runPermissionTests a env
    = ([main.LogRunning]
       ++ imap (λ i tc, main.LogPass (Z.of_nat i + 1) (main.desc tc)) main.testCases
       ++ [main.LogResults 12 12])%list.
Proof.
  intros Hs Ho Ha Hacl Hu Hm.
  assert (Hall : Forall (agrees a) main.testCases).
  { apply Forall_forall. intros tc Hin. unfold main.agrees.
    rewrite (default_answer a tc Example.policy Hs Ho Ha Hacl (Hu tc Hin) (Hm tc Hin)).
    clear -Hin. unfold main.testCases in Hin.
    repeat (apply elem_of_cons in Hin as [-> | Hin]); try reflexivity.
    by apply elem_of_nil in Hin. }
  split; [exact Hall|].
  unfold main.runPermissionTests.
  destruct (loop_report a main.testCases
              (main.mkLoopState 0 0 [main.LogRunning] env)) as (_ & Hp & Hl).
  cbn zeta in Hp, Hl. rewrite Hp, Hl. cbn [main.passed main.index main.logged].
  apply (filter_all_length (agrees a)) in Hall. rewrite Hall.
  rewrite <- app_assoc. do 2 f_equal.
  apply imap_ext. intros i tc Hi. cbn. unfold main.reportLine.
  apply (filter_all_length (agrees a)) in Hall.
  rewrite decide_True; [done|].
  rewrite Forall_forall in Hall. apply Hall. by eapply list_elem_of_lookup_2.
Qed.

End ExampleProgram.

(** ** The further properties at concrete requests *)

Module MoreScenarios.
Import Example Fixtures.

Lemma denied_by_default_is_403_witness :
  Forall keepsForbidden [WithActionGetter constGet : Option nat Engine]
  ∧ verdict Enforce (NewAuthorizer (Env:=nat) (Acl policy) [WithActionGetter constGet])
      bobGetsRoot = (false, None)
  ∧ StatusCode (Resp (Middleware Enforce
                        (NewAuthorizer (Acl policy) [WithActionGetter constGet])
                        countCalls bobGetsRoot 0%nat).1) = 403
  ∧ Body (Resp (Middleware Enforce
                  (NewAuthorizer (Acl policy) [WithActionGetter constGet])
                  countCalls bobGetsRoot 0%nat).1) = "Forbidden".
Proof.
  assert (Hk : Forall keepsForbidden [WithActionGetter constGet : Option nat Engine])
    by (repeat constructor).
  assert (Hv : verdict Enforce
                 (NewAuthorizer (Env:=nat) (Acl policy) [WithActionGetter constGet])
                 bobGetsRoot = (false, None)) by reflexivity.
  destruct (denied_by_default_is_403 Enforce (Acl policy) _ countCalls bobGetsRoot
              0%nat Hk Hv) as (_ & _ & Hs & _ & _ & Hb & _).
  split; [exact Hk|]. split; [exact Hv|]. split; [exact Hs | exact Hb].
Defined.

Lemma no_user_is_anonymous_witness :
  (getSubject (withTeapot (Env:=bool)) = defaultGetSubject
   ∧ getObject (withTeapot (Env:=bool)) = defaultGetObject
   ∧ getAction (withTeapot (Env:=bool)) = defaultGetAction)
  ∧ verdict Enforce (withTeapot (Env:=bool))
      (newCtx (<["X-User" := "anonymous"]> ∅) "/" "GET" ∅)
    = verdict Enforce (withTeapot (Env:=bool))
        (newCtx (delete "X-User" ∅) "/" "GET" ∅).
Proof.
  split; [by split_and!|].
  destruct (no_user_is_anonymous Enforce (withTeapot (Env:=bool)) setAllowed
              ∅ "/" "GET" ∅ false eq_refl eq_refl eq_refl) as (_ & _ & Hn & _).
  exact Hn.
Defined.

Lemma helper_agrees_with_from_files_witness :
  fromFiles [WithForbiddenHandler teapot] = (Some withTeapot, None)
  ∧ Forall keepsEnforcer [WithForbiddenHandler teapot : Option bool Engine]
  ∧ AuthorizerMiddleware (Env:=bool) Enforce (enforcer (withTeapot (Env:=bool)))
      [WithForbiddenHandler teapot]
    = Middleware Enforce withTeapot.
Proof.
  assert (Hf : fromFiles [WithForbiddenHandler teapot] = (Some withTeapot, None))
    by reflexivity.
  assert (Hk : Forall keepsEnforcer [WithForbiddenHandler teapot : Option bool Engine])
    by (repeat constructor).
  split; [exact Hf|]. split; [exact Hk|].
  exact (proj2 (helper_agrees_with_from_files Enforce NewEnforcer
                  "authz_model.conf" "authz_policy.csv" _ _ Hf Hk)).
Defined.

Lemma option_order_is_irrelevant_across_slots_witness :
  threeOptions ≡ₚ threeOptionsSwapped
  ∧ (∀ o1 o2, o1 ∈ threeOptions → o2 ∈ threeOptions → ∀ a, o1 (o2 a) = o2 (o1 a))
  ∧ NewAuthorizer (Acl policy) threeOptions
    = NewAuthorizer (Acl policy) threeOptionsSwapped.
Proof.
  assert (Hp : threeOptions ≡ₚ threeOptionsSwapped) by apply perm_swap.
  assert (Hc : ∀ o1 o2, o1 ∈ threeOptions → o2 ∈ threeOptions →
                 ∀ a, o1 (o2 a) = o2 (o1 a)).
  { unfold threeOptions. intros o1 o2 H1 H2 a.
    repeat (apply elem_of_cons in H1 as [-> | H1]);
      repeat (apply elem_of_cons in H2 as [-> | H2]);
      try reflexivity;
      solve [by apply elem_of_nil in H1 | by apply elem_of_nil in H2]. }
  split; [exact Hp|]. split; [exact Hc|].
  destruct (option_order_is_irrelevant_across_slots (Acl policy) threeOptions
              threeOptionsSwapped queryUser constData1 constGet teapot plain)
    as (_ & _ & _ & _ & _ & _ & Hperm).
  exact (Hperm Hp Hc).
Defined.

Lemma stacked_middlewares_witness :
  verdict Enforce (plain (Env:=nat)) aliceGetsData1 = (true, None)
  ∧ verdict Enforce (rootOnly (Env:=nat)) aliceGetsData1 = (false, None)
  ∧ Middleware Enforce plain (Middleware Enforce rootOnly countCalls)
      aliceGetsData1 0%nat
    = Middleware Enforce rootOnly countCalls aliceGetsData1 0%nat
  ∧ Middleware Enforce plain (Middleware Enforce rootOnly skip) aliceGetsData1 0%nat
    = Middleware Enforce plain (Middleware Enforce rootOnly countCalls)
        aliceGetsData1 0%nat.
Proof.
  assert (H1 : verdict Enforce (plain (Env:=nat)) aliceGetsData1 = (true, None))
    by reflexivity.
  assert (H2 : verdict Enforce (rootOnly (Env:=nat)) aliceGetsData1 = (false, None))
    by reflexivity.
  destruct (stacked_middlewares Enforce plain rootOnly countCalls aliceGetsData1 0%nat)
    as (Hin & _ & Hblock & _).
  split; [exact H1|]. split; [exact H2|]. split; [exact (Hin H1)|].
  apply Hblock. right. rewrite H2. discriminate.
Defined.

Lemma handler_serves_its_routes_witness :
  (Path aliceGetsRoot ∈ main.routes
   ∧ statusCode (Resp (main.handler aliceGetsRoot tt).1) = 0)
  ∧ ((Path aliceGetsOldPage ∉ main.routes)
     ∧ statusCode (Resp (main.handler aliceGetsOldPage tt).1) = 404
     ∧ Body (Resp (main.handler aliceGetsOldPage tt).1) = "Page not found: /old")
  ∧ Body (Resp (main.handler aliceGetsRoot tt).1)
    = "Welcome to the home page! User: alice"
  ∧ Body (Resp (main.handler aliceGetsData1 tt).1) = "Data1 page - User: alice".
Proof.
  assert (Hin : Path aliceGetsRoot ∈ main.routes) by apply list_elem_of_here.
  assert (Hout : Path aliceGetsOldPage ∉ main.routes).
  { unfold main.routes. rewrite !not_elem_of_cons.
    split_and!; try discriminate. apply not_elem_of_nil. }
  destruct (handler_serves_its_routes aliceGetsRoot tt)
    as (_ & _ & _ & _ & Hroute & _ & Hroot & _ & _ & _).
  destruct (handler_serves_its_routes aliceGetsOldPage tt)
    as (_ & _ & _ & _ & _ & Hother & _).
  split; [exact (conj Hin (Hroute Hin))|].
  destruct (handler_serves_its_routes aliceGetsData1 tt)
    as (_ & _ & _ & _ & _ & _ & _ & Hdata1 & _).
  split; [exact (conj Hout (Hother Hout))|].
  split; [exact (Hroot eq_refl) | exact (Hdata1 eq_refl)].
Defined.

Lemma protected_status_tells_the_verdict_witness :
  (forbiddenHandler (plain (Env:=unit)) = defaultForbiddenHandler
   ∧ statusCode (Resp aliceGetsRoot) = 0
   ∧ StatusCode (Resp (main.protected Enforce plain aliceGetsRoot tt).1) = 200)
  ∧ (forbiddenHandler (withOldPage (Env:=unit)) = defaultForbiddenHandler
     ∧ statusCode (Resp aliceGetsOldPage) = 0
     ∧ StatusCode (Resp (main.protected Enforce withOldPage aliceGetsOldPage tt).1)
       = 404)
  ∧ StatusCode (Resp (main.protected Enforce (plain (Env:=unit)) bobGetsRoot tt).1)
    = 403.
Proof.
  assert (Hin : Path aliceGetsRoot ∈ main.routes) by apply list_elem_of_here.
  assert (Hout : Path aliceGetsOldPage ∉ main.routes).
  { unfold main.routes. rewrite !not_elem_of_cons.
    split_and!; try discriminate. apply not_elem_of_nil. }
  destruct (protected_status_tells_the_verdict Enforce (plain (Env:=unit))
              aliceGetsRoot tt eq_refl eq_refl) as (_ & _ & _ & H200 & _).
  destruct (protected_status_tells_the_verdict Enforce (withOldPage (Env:=unit))
              aliceGetsOldPage tt eq_refl eq_refl) as (_ & _ & _ & _ & H404 & _).
  destruct (protected_status_tells_the_verdict Enforce (plain (Env:=unit))
              bobGetsRoot tt eq_refl eq_refl) as (_ & _ & _ & _ & _ & H403 & _).
  split; [split_and!; [reflexivity | reflexivity | by apply H200]|].
  split; [split_and!; [reflexivity | reflexivity | by apply H404]|].
  by apply H403.
Defined.

Lemma testPermission_reports_the_verdict_witness :
  verdict Enforce (plain (Env:=unit))
    (main.testCtx main.pathOnly main.sameMethod
       (main.mkTestCase "bob" "/data2" "POST" true "bob can POST to /data2"))
    = (true, None)
  ∧ main.testPermission Enforce main.pathOnly main.sameMethod plain tt
      (main.mkTestCase "bob" "/data2" "POST" true "bob can POST to /data2")
    = (true, tt).
Proof.
  split; [reflexivity|].
  destruct (testPermission_reports_the_verdict Enforce main.pathOnly main.sameMethod
              (plain (Env:=unit)) tt
              (main.mkTestCase "bob" "/data2" "POST" true "bob can POST to /data2"))
    as (Hiff & _ & Henv & _).
  apply injective_projections.
  - by apply Hiff.
  - by apply Henv.
Defined.

Lemma runPermissionTests_report_witness :
  Forall (main.agrees Enforce main.pathOnly main.sameMethod (plain (Env:=unit)))
    main.testCases
  ∧ last selfTest = Some (main.LogResults 12 12).
Proof.
  destruct (runPermissionTests_report Enforce main.pathOnly main.sameMethod
              (plain (Env:=unit)) tt) as (Hlog & _ & Hall).
  assert (HF : Forall (main.agrees Enforce main.pathOnly main.sameMethod
                         (plain (Env:=unit))) main.testCases)
    by (repeat constructor).
  split; [exact HF|].
  unfold selfTest. rewrite Hlog. cbn zeta.
  apply Hall in HF. rewrite HF. reflexivity.
Defined.

Lemma self_test_passes_on_README_policy_witness :
  (∀ sub obj act,
     Enforce (enforcer (plain (Env:=unit))) sub obj act
       = (bool_decide ((sub, obj, act) ∈ policy), None))
  ∧ selfTest
    = ([main.LogRunning]
       ++ imap (λ i tc, main.LogPass (Z.of_nat i + 1) (main.desc tc)) main.testCases
       ++ [main.LogResults 12 12])%list.
Proof.
  assert (Hacl : ∀ sub obj act,
            Enforce (enforcer (plain (Env:=unit))) sub obj act
              = (bool_decide ((sub, obj, act) ∈ policy), None))
    by (intros; reflexivity).
  split; [exact Hacl|].
  apply (self_test_passes_on_README_policy Enforce main.pathOnly main.sameMethod
           (plain (Env:=unit)) tt eq_refl eq_refl eq_refl Hacl).
  - intros tc _. reflexivity.
  - intros tc _. reflexivity.
Defined.

Lemma getters_decide_the_triple_witness :
  Forall keepsEnforcer [WithForbiddenHandler teapot : Option bool Engine]
  ∧ (∀ c c', constAlice c = constAlice c' ∧ constData1 c = constData1 c'
             ∧ constGet c = constGet c')
  ∧ verdict Enforce
      (NewAuthorizer (Env:=bool) (Acl policy)
         ([WithForbiddenHandler teapot]
          ++ [WithSubjectGetter constAlice; WithObjectGetter constData1;
              WithActionGetter constGet]))
      bobGetsRoot = (true, None)
  ∧ kind <$> run_trace
      (serve Enforce
         (NewAuthorizer (Env:=bool) (Acl policy)
            ([WithForbiddenHandler teapot]
             ++ [WithSubjectGetter constAlice; WithObjectGetter constData1;
                 WithActionGetter constGet]))
         setAllowed aliceGetsRoot false)
    = kind <$> run_trace
        (serve Enforce
           (NewAuthorizer (Env:=bool) (Acl policy)
              ([WithForbiddenHandler teapot]
               ++ [WithSubjectGetter constAlice; WithObjectGetter constData1;
                   WithActionGetter constGet]))
           setAllowed bobGetsRoot false).
Proof.
  assert (Hk : Forall keepsEnforcer [WithForbiddenHandler teapot : Option bool Engine])
    by (repeat constructor).
  assert (Hc : ∀ c c', constAlice c = constAlice c' ∧ constData1 c = constData1 c'
                       ∧ constGet c = constGet c') by (intros; by split_and!).
  destruct (getters_decide_the_triple (Env:=bool) Enforce (Acl policy)
              [WithForbiddenHandler teapot] constAlice constData1 constGet
              bobGetsRoot Hk) as (Hv & Hsame).
  split; [exact Hk|]. split; [exact Hc|]. split.
  - rewrite Hv. reflexivity.
  - exact (Hsame Hc aliceGetsRoot setAllowed false false).
Defined.

End MoreScenarios.
